(** * HubSpot lead-intake function: a shallow embedding of [function_app.py]

    The file embeds the three functions of [function_app.py]
    ([wait_for_company_association], [update_company_properties] and the
    HTTP handler [HubspotAdd]) and proves the properties of the
    specification about them.

    Modelling conventions.
    - Values that come out of [json.loads] or [Response.json()] are Python
      objects; they are modelled by the inductive [json].  A Python [dict]
      is an association list read with [dict_get] (first binding wins);
      [None] is [JNull].
    - Python exceptions are the error half of [pyresult].
    - The outbound HTTP calls ([requests.post/patch/get]) and [time.sleep]
      are the only effects.  They are recorded, in order, in a trace of
      [event]s; the answer of the CRM to a call is given by an oracle that
      sees the whole history, so that any deterministic CRM is covered.
    - Library code is taken as a parameter: the ISO country table
      ([pycountry.countries.get]), the rendering of an exception
      ([str(e)]), the clock and the process environment.
    - Logging has no behavioural effect and is left out. *)

From Stdlib Require Import List String Ascii ZArith QArith Bool Lia.
Import ListNotations.
Local Open Scope string_scope.
Local Open Scope list_scope.
Local Open Scope Z_scope.
Set Warnings "-register-all".

(** ** Python values *)

(** A Python [float]: the finite ones as rationals, plus the non-finite
    values that [json.loads] accepts ([Infinity], [-Infinity], [NaN]). *)
Inductive pyfloat : Type :=
| Finite (q : Q)
| Infinite (negative : bool)
| NaN.

Inductive json : Type :=
| JNull
| JBool (b : bool)
| JInt (z : Z)
| JFloat (f : pyfloat)
| JStr (s : string)
| JList (l : list json)
| JObj (kv : list (string * json)).

(** Python truthiness ([bool(v)]), as used by [if v:] and [not v]. *)
Definition truthy (v : json) : bool :=
  match v with
  | JNull => false
  | JBool b => b
  | JInt z => negb (z =? 0)
  | JFloat (Finite q) => negb (Qnum q =? 0)
  | JFloat _ => true
  | JStr s => negb (s =? "")%string
  | JList [] => false
  | JList (_ :: _) => true
  | JObj [] => false
  | JObj (_ :: _) => true
  end.

(** [d.get(k)] on a [dict], [None] when the key is absent. *)
Fixpoint dict_get (kv : list (string * json)) (k : string) : option json :=
  match kv with
  | [] => None
  | (k', v) :: rest => if (k' =? k)%string then Some v else dict_get rest k
  end.

(** [d.get(k, default)]. *)
Definition dict_get_default (kv : list (string * json)) (k : string)
    (default : json) : json :=
  match dict_get kv k with
  | Some v => v
  | None => default
  end.

(** [v in l] for a list [l] of string literals: only a [str] can be equal
    to a [str]. *)
Definition py_in (v : json) (l : list string) : bool :=
  match v with
  | JStr s => existsb (String.eqb s) l
  | _ => false
  end.

(** ** Territory classification *)

(** The literal tables of [update_company_properties] (lines 55-71). *)
Module CompanyTables.

Definition filtered_country_codes : list string :=
  [ (* North America *)
    "AG"; "AI"; "AW"; "BS"; "BB"; "BZ"; "BM"; "CA"; "CR"; "CU"; "CW"; "DM"; "DO";
    "SV"; "GD"; "GP"; "GT"; "HT"; "HN"; "JM"; "MQ"; "MX"; "MS"; "NI"; "PA"; "PR";
    "KN"; "LC"; "MF"; "PM"; "VC"; "SX"; "TT"; "US"; "VG"; "VI";
    (* Oceania *)
    "AS"; "AU"; "CK"; "FJ"; "PF"; "GU"; "KI"; "MH"; "FM"; "NR"; "NC"; "NZ"; "NU";
    "NF"; "MP"; "PW"; "PG"; "PN"; "WS"; "SB"; "TK"; "TO"; "TV"; "VU"; "WF";
    (* South America *)
    "AR"; "BO"; "BR"; "CL"; "CO"; "EC"; "FK"; "GF"; "GY"; "PY"; "PE"; "SR"; "UY"; "VE" ].

Definition a_rated_countries : list string :=
  [ "US"; "CA"; "AU"; "NZ"; "GB"; "DE"; "FR"; "NL";
    "SE"; "CH"; "NO"; "FI"; "DK"; "BE"; "AT"; "JP";
    "KR"; "SG" ].

End CompanyTables.

(** The literal tables of [HubspotAdd] (lines 210-226), a second copy. *)
Module ContactTables.

Definition filtered_country_codes : list string :=
  [ (* North America *)
    "AG"; "AI"; "AW"; "BS"; "BB"; "BZ"; "BM"; "CA"; "CR"; "CU"; "CW"; "DM"; "DO";
    "SV"; "GD"; "GP"; "GT"; "HT"; "HN"; "JM"; "MQ"; "MX"; "MS"; "NI"; "PA"; "PR";
    "KN"; "LC"; "MF"; "PM"; "VC"; "SX"; "TT"; "US"; "VG"; "VI";
    (* Oceania *)
    "AS"; "AU"; "CK"; "FJ"; "PF"; "GU"; "KI"; "MH"; "FM"; "NR"; "NC"; "NZ"; "NU";
    "NF"; "MP"; "PW"; "PG"; "PN"; "WS"; "SB"; "TK"; "TO"; "TV"; "VU"; "WF";
    (* South America *)
    "AR"; "BO"; "BR"; "CL"; "CO"; "EC"; "FK"; "GF"; "GY"; "PY"; "PE"; "SR"; "UY"; "VE" ].

Definition a_rated_countries : list string :=
  [ "US"; "CA"; "AU"; "NZ"; "GB"; "DE"; "FR"; "NL";
    "SE"; "CH"; "NO"; "FI"; "DK"; "BE"; "AT"; "JP";
    "KR"; "SG" ].

End ContactTables.

(** Lines 73-77 of [update_company_properties]. *)
Definition company_sales_office (user_country : json) : string :=
  if py_in user_country CompanyTables.filtered_country_codes
  then "BPA US" else "BPA CH".

Definition company_market_type (user_country : json) : string :=
  if py_in user_country CompanyTables.a_rated_countries then "A" else "B".

Definition sales_account_manager (sales_office : string) : string :=
  if (sales_office =? "BPA US")%string then "Sebastien Rocco" else "Damien Emery".

(** Lines 228-229 of [HubspotAdd]. *)
Definition contact_sales_office (country : json) : string :=
  if py_in country ContactTables.filtered_country_codes
  then "BPA US" else "BPA CH".

Definition contact_market_type (country : json) : string :=
  if py_in country ContactTables.a_rated_countries then "A" else "B".

(** The classifier as the specification words it (section 4.3 and the
    Glossary); only compared with the code, never used by it. *)
Module Glossary.

Definition filtered_country_set : list string :=
  [ "AG"; "AI"; "AW"; "BS"; "BB"; "BZ"; "BM"; "CA"; "CR"; "CU"; "CW"; "DM";
    "DO"; "SV"; "GD"; "GP"; "GT"; "HT"; "HN"; "JM"; "MQ"; "MX"; "MS"; "NI";
    "PA"; "PR"; "KN"; "LC"; "MF"; "PM"; "VC"; "SX"; "TT"; "US"; "VG"; "VI";
    "AS"; "AU"; "CK"; "FJ"; "PF"; "GU"; "KI"; "MH"; "FM"; "NR"; "NC"; "NZ";
    "NU"; "NF"; "MP"; "PW"; "PG"; "PN"; "WS"; "SB"; "TK"; "TO"; "TV"; "VU";
    "WF"; "AR"; "BO"; "BR"; "CL"; "CO"; "EC"; "FK"; "GF"; "GY"; "PY"; "PE";
    "SR"; "UY"; "VE" ].

Definition a_rated_tier_set : list string :=
  [ "US"; "CA"; "AU"; "NZ"; "GB"; "DE"; "FR"; "NL"; "SE"; "CH"; "NO"; "FI";
    "DK"; "BE"; "AT"; "JP"; "KR"; "SG" ].

Record TerritoryClassification : Type := {
  salesOffice : string;
  marketTier : string;
  accountManager : string
}.

Definition classify (countryCode : string) : TerritoryClassification :=
  let office :=
    if in_dec string_dec countryCode filtered_country_set
    then "BPA US" else "BPA CH" in
  {| salesOffice := office;
     marketTier :=
       if in_dec string_dec countryCode a_rated_tier_set then "A" else "B";
     accountManager :=
       if string_dec office "BPA US" then "Sebastien Rocco" else "Damien Emery" |}.

End Glossary.

(** ** Exceptions and fallible operations *)

(** The exceptions the modelled code can meet.  All of them are
    subclasses of Python's [Exception], hence caught by
    [except Exception]. *)
Inductive exn : Type :=
| TypeError
| AttributeError
| KeyError (key : string)
| IndexError
| ValueError
| OverflowError
| LookupError
| JSONDecodeError
| UnicodeDecodeError
| RequestException (msg : string).

Inductive pyresult (A : Type) : Type :=
| Ok (a : A)
| Raise (e : exn).
Arguments Ok {A} a.
Arguments Raise {A} e.

(** [v.get(k)]: only a [dict] has the method. *)
Definition py_get (v : json) (k : string) : pyresult json :=
  match v with
  | JObj kv => Ok (dict_get_default kv k JNull)
  | _ => Raise AttributeError
  end.

(** [v.get(k, default)]. *)
Definition py_get_default (v : json) (k : string) (default : json)
    : pyresult json :=
  match v with
  | JObj kv => Ok (dict_get_default kv k default)
  | _ => Raise AttributeError
  end.

(** [v[k]] for a string key [k]. *)
Definition py_getitem (v : json) (k : string) : pyresult json :=
  match v with
  | JObj kv =>
      match dict_get kv k with
      | Some x => Ok x
      | None => Raise (KeyError k)
      end
  | _ => Raise TypeError
  end.

(** [v[0]]. *)
Definition py_getitem0 (v : json) : pyresult json :=
  match v with
  | JList (x :: _) => Ok x
  | JList [] => Raise IndexError
  | JStr (String c _) => Ok (JStr (String c ""))
  | JStr EmptyString => Raise IndexError
  | JObj _ => Raise (KeyError "0")
  | _ => Raise TypeError
  end.

(** [k in s] for two strings: [k] occurs in [s]. *)
Fixpoint str_contains (k s : string) : bool :=
  if String.prefix k s then true
  else match s with
       | EmptyString => false
       | String _ s' => str_contains k s'
       end.

(** [k in v] for a string [k]: key of a dict, element of a list,
    substring of a string; the other values are not containers. *)
Definition py_contains (k : string) (v : json) : pyresult bool :=
  match v with
  | JObj kv => Ok (match dict_get kv k with Some _ => true | None => false end)
  | JList l =>
      Ok (existsb (fun x => match x with
                            | JStr s => (s =? k)%string
                            | _ => false
                            end) l)
  | JStr s => Ok (str_contains k s)
  | _ => Raise TypeError
  end.

(** [v is not None]. *)
Definition is_not_none (v : json) : bool :=
  match v with
  | JNull => false
  | _ => true
  end.

(** ** The outside world *)

(** What [requests] hands back: the status code, the raw text, and what
    [Response.json()] yields ([None] when the text is not JSON). *)
Record response : Type := {
  status_code : Z;
  text : string;
  json_body : option json
}.

Definition response_json (r : response) : pyresult json :=
  match json_body r with
  | Some j => Ok j
  | None => Raise JSONDecodeError
  end.

Definition http_headers : Type := list (string * string).

(** The four CRM operations.  A value interpolated into the URL is kept
    as the value itself. *)
Inductive call : Type :=
| CreateContact (hdrs : http_headers) (payload : json)
| UpdateContact (email : json) (hdrs : http_headers) (payload : json)
| GetAssociations (contact_id : json) (hdrs : http_headers)
| UpdateCompany (company_id : json) (hdrs : http_headers) (payload : json).

(** A call either returns a response or raises (time-out, connection
    error, ...). *)
Inductive outcome : Type :=
| Returned (r : response)
| Failed (e : exn).

Inductive event : Type :=
| Called (c : call) (o : outcome)
| Slept (seconds : Q).

(** The request as the handler sees it: the method, and what
    [json.loads(req.get_body().decode("utf-8"))] does. *)
Inductive request_body : Type :=
| BodyJson (data : json)
| BodyNotJson
| BodyFault (e : exn).

Record HttpRequest : Type := {
  method : string;
  body : request_body
}.

Inductive response_body : Type :=
| Text (s : string)
| JsonDumps (j : json).

Record HttpResponse : Type := {
  resp_status : Z;
  resp_body : response_body;
  resp_mimetype : option string;
  resp_headers : http_headers
}.

(** Everything the code takes from outside. *)
Record World : Type := {
  (** the CRM: answer to a call, given the events so far *)
  crm : list event -> call -> outcome;
  (** [pycountry.countries.get(alpha_2=...)]: the country's name *)
  countries_get : json -> pyresult (option string);
  (** [str(e)] *)
  str_exn : exn -> string;
  (** [datetime.utcnow().isoformat()] *)
  utcnow_isoformat : string;
  (** [os.environ.get("HUBSPOT_TOKEN")] *)
  HUBSPOT_TOKEN : option string
}.

(** ** The effect monad: a trace of events, and exceptions *)

Definition M (A : Type) : Type := list event -> pyresult A * list event.

Definition ret {A} (a : A) : M A := fun tr => (Ok a, tr).

Definition raise {A} (e : exn) : M A := fun tr => (Raise e, tr).

Definition lift {A} (r : pyresult A) : M A := fun tr => (r, tr).

Definition bind {A B} (m : M A) (k : A -> M B) : M B :=
  fun tr =>
    match m tr with
    | (Ok a, tr') => k a tr'
    | (Raise e, tr') => (Raise e, tr')
    end.

(** [try: m  except Exception as e: h e]. *)
Definition try_except {A} (m : M A) (h : exn -> M A) : M A :=
  fun tr =>
    match m tr with
    | (Ok a, tr') => (Ok a, tr')
    | (Raise e, tr') => h e tr'
    end.

Declare Scope py_scope.
Delimit Scope py_scope with py.
Notation "x <- m ;; k" := (bind m (fun x => k))
  (at level 61, m at next level, right associativity) : py_scope.
Notation "m ;;; k" := (bind m (fun _ => k))
  (at level 61, right associativity) : py_scope.

(** [requests.<verb>(url, ...)]. *)
Definition send (w : World) (c : call) : M response :=
  fun tr =>
    match crm w tr c with
    | Returned r => (Ok r, tr ++ [Called c (Returned r)])
    | Failed e => (Raise e, tr ++ [Called c (Failed e)])
    end.

(** The longest pause [time.sleep] accepts, in seconds: CPython turns the
    length into a signed 64-bit count of nanoseconds. *)
Definition sleep_max : Q := 9223372036854775807 # 1000000000.

(** A length [time.sleep] accepts. *)
Definition sleepable (d : Q) : bool := Qle_bool 0 d && Qle_bool d sleep_max.

(** [time.sleep(d)]: a length that does not fit the count of nanoseconds
    is an [OverflowError], a negative one a [ValueError]. *)
Definition sleep (d : Q) : M unit :=
  fun tr =>
    if Qle_bool (- sleep_max) d && Qle_bool d sleep_max then
      if Qle_bool 0 d then (Ok tt, tr ++ [Slept d]) else (Raise ValueError, tr)
    else (Raise OverflowError, tr).

(** ** The code *)

(** How one pass through the body of a [for] loop ends: the function
    returns, or the loop goes on with the (possibly updated) local
    [delay]. *)
Inductive loop_step : Type :=
| Return (v : json)
| Continue (delay : Q).

(** [range(n)]. *)
Definition range (n : Z) : list Z := map Z.of_nat (seq 0 (Z.to_nat n)).

Definition solution_map : list (string * string) :=
  [ ("BPACRM365", "BPA CRM 365");
    ("BPAMedical365", "BPA Medical 365");
    ("BPAQuality365", "BPA Quality 365");
    ("CRMandProjectManagementbyBPA", "CRM & Project Management by BPA");
    ("QualityandRiskManagementbyBPA", "Quality & Risk Management by BPA");
    ("Solutionbuilder", "Solution builder") ].

Fixpoint assoc_string (m : list (string * string)) (k : string) : option string :=
  match m with
  | [] => None
  | (k', v) :: rest => if (k' =? k)%string then Some v else assoc_string rest k
  end.

(** [solution_map.get(raw_solution, raw_solution)]: the key is hashed
    first, which a list or a dict refuses. *)
Definition solution_map_get (raw_solution : json) : pyresult json :=
  match raw_solution with
  | JList _ | JObj _ => Raise TypeError
  | JStr s =>
      match assoc_string solution_map s with
      | Some display => Ok (JStr display)
      | None => Ok raw_solution
      end
  | _ => Ok raw_solution
  end.

Definition required_fields : list string := ["Email"; "FirstName"; "LastName"].

(** The loop of lines 182-190: the first field of [fields] whose value is
    falsy, if any. *)
Fixpoint first_missing (user : json) (fields : list string)
    : pyresult (option string) :=
  match fields with
  | [] => Ok None
  | field :: rest =>
      match py_get user field with
      | Raise e => Raise e
      | Ok v => if negb (truthy v) then Ok (Some field) else first_missing user rest
      end
  end.

Section Code.

Variable w : World.

Local Open Scope py_scope.

(** *** [wait_for_company_association] (lines 12-42) *)

(** The body of the [try] (lines 21-34) at one [attempt].  The delay is
    a rational kept in lowest terms, and [delay *= 1.5] is exact on it.
    The code multiplies doubles: the two agree on the delays the handler
    uses (2, 3, 4.5, 6.75 and 0), which are exact doubles.  The theorems
    about the pauses of the code after a backoff are stated at those
    delays; the auxiliary lemmas for an arbitrary delay speak of the
    rational backoff. *)
Definition poll_try (contact_id : json) (headers : http_headers)
    (max_retries attempt : Z) (delay : Q) : M loop_step :=
  let not_found : M loop_step :=
    if attempt <? max_retries - 1
    then (sleep delay ;;; ret (Continue (Qred (delay * (3 # 2)))))
    else ret (Continue delay) in
  associations_response <- send w (GetAssociations contact_id headers) ;;
  if status_code associations_response =? 200 then
    (associations_data <- lift (response_json associations_response) ;;
     results <- lift (py_get associations_data "results") ;;
     if truthy results then
       (results' <- lift (py_getitem associations_data "results") ;;
        first <- lift (py_getitem0 results') ;;
        company_id <- lift (py_getitem first "toObjectId") ;;
        ret (Return company_id))
     else not_found)
  else not_found.

(** The [except] clause (lines 36-39). *)
Definition poll_except (max_retries attempt : Z) (delay : Q)
    : M loop_step :=
  (if attempt <? max_retries - 1 then sleep delay else ret tt) ;;;
  ret (Continue delay).

Fixpoint poll_loop (contact_id : json) (headers : http_headers)
    (max_retries : Z) (attempts : list Z) (delay : Q) : M json :=
  match attempts with
  | [] => ret JNull
  | attempt :: rest =>
      step <- try_except
                (poll_try contact_id headers max_retries attempt delay)
                (fun _ => poll_except max_retries attempt delay) ;;
      match step with
      | Return company_id => ret company_id
      | Continue delay' => poll_loop contact_id headers max_retries rest delay'
      end
  end.

Definition wait_for_company_association (contact_id : json)
    (headers : http_headers) (max_retries : Z) (delay : Q) : M json :=
  poll_loop contact_id headers max_retries (range max_retries) delay.

(** *** [update_company_properties] (lines 44-121) *)

Definition update_company_properties (company_id user_country : json)
    (headers : http_headers) : M bool :=
  try_except
    (country <- (if truthy user_country
                 then lift (countries_get w user_country)
                 else ret None) ;;
     let sales_office := company_sales_office user_country in
     let market_type := company_market_type user_country in
     let manager := sales_account_manager sales_office in
     let properties :=
       [ ("bpa_sales_office", JStr sales_office);
         ("market_type", JStr market_type);
         ("sales_account_manager", JStr manager);
         ("country_region_code", user_country) ]
       ++ match country with
          | Some name => [("country", JStr name)]
          | None => []
          end in
     let company_update_data := JObj [("properties", JObj properties)] in
     company_update_response <-
       send w (UpdateCompany company_id headers company_update_data) ;;
     if status_code company_update_response =? 200 then ret true
     else ret false)
    (fun _ => ret false).

(** *** [HubspotAdd] (lines 123-362) *)

(** Lines 322-353: from the contact id to the success response. *)
Definition resolve_and_respond (user : json) (headers : http_headers)
    (r : response) (contact_created : bool) : M HttpResponse :=
  body_json <- lift (response_json r) ;;
  contact_id <- lift (py_getitem body_json "id") ;;
  company_id <-
    (if contact_created
     then wait_for_company_association contact_id headers 5 (2 # 1)
     else wait_for_company_association contact_id headers 1 (0 # 1)) ;;
  (if truthy company_id then
     (country <- lift (py_get_default user "Country" (JStr "")) ;;
      success <- update_company_properties company_id country headers ;;
      ret tt)
   else ret tt) ;;;
  ret {| resp_status := 200;
         resp_body := JsonDumps (JObj
           [ ("message", JStr "Lead processed successfully");
             ("timestamp", JStr (utcnow_isoformat w));
             ("company_updated", JBool (is_not_none company_id)) ]);
         resp_mimetype := Some "application/json";
         resp_headers := [("Access-Control-Allow-Origin", "*")] |}.

(** Lines 280-353: what the handler makes of the answer [r] to the
    create call. *)
Definition after_create (user hubspot_data : json)
    (headers : http_headers) (r : response) : M HttpResponse :=
  if status_code r =? 400 then
    ret {| resp_status := 400;
           resp_body := JsonDumps (JObj [("message", JStr (text r))]);
           resp_mimetype := Some "application/json";
           resp_headers := [("Access-Control-Allow-Origin", "*")] |}
  else if status_code r =? 409 then
    (email <- lift (py_getitem user "Email") ;;
     patched <- try_except
       (r' <- send w (UpdateContact email headers hubspot_data) ;;
        ret (inr r'))
       (fun patch_err =>
          ret (inl
            {| resp_status := 500;
               resp_body := JsonDumps (JObj
                 [ ("message", JStr "PATCH update failed");
                   ("error", JStr (str_exn w patch_err)) ]);
               resp_mimetype := Some "application/json";
               resp_headers := [("Access-Control-Allow-Origin", "*")] |})) ;;
     match patched with
     | inl failure => ret failure
     | inr r' =>
         if status_code r' =? 400 then
           ret {| resp_status := 400;
                  resp_body := JsonDumps (JObj [("message", JStr (text r'))]);
                  resp_mimetype := Some "application/json";
                  resp_headers := [("Access-Control-Allow-Origin", "*")] |}
         else resolve_and_respond user headers r' false
     end)
  else resolve_and_respond user headers r true.

(** Lines 273-353: create the contact, or update it on a conflict. *)
Definition create_or_update (user hubspot_data : json)
    (headers : http_headers) : M HttpResponse :=
  r <- send w (CreateContact headers hubspot_data) ;;
  after_create user hubspot_data headers r.

(** Lines 192-255: the contact record [hubspot_data]. *)
Definition build_hubspot_data (data user : json) : M json :=
  raw_solution <- lift (py_get_default data "OfferTitle" (JStr "")) ;;
  solution_value <- lift (solution_map_get raw_solution) ;;
  country_code <- lift (py_get_default user "Country" (JStr "")) ;;
  country <- (if truthy country_code
              then lift (countries_get w country_code)
              else ret None) ;;
  let sales_office := contact_sales_office country_code in
  let market_type := contact_market_type country_code in
  email <- lift (py_get_default user "Email" (JStr "")) ;;
  firstname <- lift (py_get_default user "FirstName" (JStr "")) ;;
  lastname <- lift (py_get_default user "LastName" (JStr "")) ;;
  phone <- lift (py_get_default user "Phone" (JStr "")) ;;
  company <- lift (py_get_default user "Company" (JStr "")) ;;
  jobtitle <- lift (py_get_default user "Title" (JStr "")) ;;
  description <- lift (py_get_default data "Description" (JStr "")) ;;
  let properties :=
    [ ("email", email);
      ("firstname", firstname);
      ("lastname", lastname);
      ("phone", phone);
      ("company", company);
      ("jobtitle", jobtitle);
      ("country_code", country_code);
      ("which_solution_are_you_interested_in_", solution_value);
      ("lifecyclestage", JStr "marketingqualifiedlead");
      ("hs_content_membership_notes", description);
      ("lead_source", JStr "AzureMarketplace");
      ("contact_origin", JStr "Marketplace");
      ("account_type", JStr "Inbound Lead");
      ("bpa_sales_office", JStr sales_office);
      ("market_type", JStr market_type);
      ("country_region_code", country_code) ]
    ++ match country with
       | Some name => [("country", JStr name); ("country_name", JStr name)]
       | None => []
       end in
  ret (JObj [("properties", JObj properties)]).

(** Lines 192-320: build the contact record, read the token, go on. *)
Definition build_and_send (data user : json) : M HttpResponse :=
  hubspot_data <- build_hubspot_data data user ;;
  match HUBSPOT_TOKEN w with
  | Some (String c token') =>
      let token := String c token' in
      let headers :=
        [ ("Authorization", ("Bearer " ++ token)%string);
          ("Content-Type", "application/json") ] in
      create_or_update user hubspot_data headers
  | _ =>
      ret {| resp_status := 500;
             resp_body := JsonDumps (JObj
               [("message", JStr "Server misconfiguration: missing token")]);
             resp_mimetype := Some "application/json";
             resp_headers := [("Access-Control-Allow-Origin", "*")] |}
  end.

(** The body of the outer [try] (lines 129-353). *)
Definition HubspotAdd_try (req : HttpRequest) : M HttpResponse :=
  if (method req =? "OPTIONS")%string then
    ret {| resp_status := 200;
           resp_body := Text "";
           resp_mimetype := None;
           resp_headers :=
             [ ("Access-Control-Allow-Origin", "*");
               ("Access-Control-Allow-Methods", "POST, OPTIONS");
               ("Access-Control-Allow-Headers",
                "Content-Type, Authorization, User-Agent") ] |}
  else if negb (method req =? "POST")%string then
    ret {| resp_status := 405;
           resp_body := JsonDumps (JObj [("message", JStr "Only POST method allowed")]);
           resp_mimetype := Some "application/json";
           resp_headers := [("Access-Control-Allow-Origin", "*")] |}
  else
    match body req with
    | BodyNotJson =>
        ret {| resp_status := 400;
               resp_body := JsonDumps (JObj [("message", JStr "Invalid JSON format")]);
               resp_mimetype := Some "application/json";
               resp_headers := [("Access-Control-Allow-Origin", "*")] |}
    | BodyFault e => raise e
    | BodyJson data =>
        has_user <- lift (py_contains "UserDetails" data) ;;
        if negb has_user then
          ret {| resp_status := 400;
                 resp_body := JsonDumps (JObj [("message", JStr "UserDetails is required")]);
                 resp_mimetype := Some "application/json";
                 resp_headers := [("Access-Control-Allow-Origin", "*")] |}
        else
          (user <- lift (py_getitem data "UserDetails") ;;
           missing <- lift (first_missing user required_fields) ;;
           match missing with
           | Some field =>
               ret {| resp_status := 400;
                      resp_body := JsonDumps (JObj
                        [("message",
                          JStr ("Required field missing: " ++ field)%string)]);
                      resp_mimetype := Some "application/json";
                      resp_headers := [("Access-Control-Allow-Origin", "*")] |}
           | None => build_and_send data user
           end)
    end.

(** The handler: the outer [try] and its catch-all (lines 355-362),
    started on an empty history. *)
Definition internal_server_error (e : exn) : HttpResponse :=
  {| resp_status := 500;
     resp_body := JsonDumps (JObj
       [ ("message", JStr "Internal server error");
         ("error", JStr (str_exn w e)) ]);
     resp_mimetype := Some "application/json";
     resp_headers := [("Access-Control-Allow-Origin", "*")] |}.

Definition HubspotAdd (req : HttpRequest) : M HttpResponse :=
  try_except (HubspotAdd_try req) (fun e => ret (internal_server_error e)).

End Code.

(** ** The Association Poller as the specification words it *)

(** Section 4.2: one association call per attempt; HTTP 200 with a
    non-empty result list returns the id of the first result at once;
    every other outcome, a transport error included, waits the current
    delay and multiplies it by 1.5 when attempts remain; none after the
    last attempt.  Only compared with [wait_for_company_association]. *)
Module PollerReference.

Definition first_result_id (o : outcome) : option json :=
  match o with
  | Failed _ => None
  | Returned r =>
      if status_code r =? 200 then
        match json_body r with
        | Some (JObj kv) =>
            match dict_get kv "results" with
            | Some (JList (JObj first :: _)) => dict_get first "toObjectId"
            | _ => None
            end
        | _ => None
        end
      else None
  end.

Fixpoint poll_from (w : World) (contactId : json) (headers : http_headers)
    (remaining : nat) (delay : Q) : M json :=
  match remaining with
  | O => ret JNull
  | S remaining' =>
      fun tr =>
        let c := GetAssociations contactId headers in
        let o := crm w tr c in
        let tr' := tr ++ [Called c o] in
        match first_result_id o with
        | Some id => (Ok id, tr')
        | None =>
            match remaining' with
            | O => (Ok JNull, tr')
            | S _ =>
                poll_from w contactId headers remaining'
                  (Qred (delay * (3 # 2))) (tr' ++ [Slept delay])
            end
        end
  end.

Definition poll (w : World) (contactId : json) (headers : http_headers)
    (maxAttempts : Z) (initialDelay : Q) : M json :=
  poll_from w contactId headers (Z.to_nat maxAttempts) initialDelay.

End PollerReference.



(** A call that creates or updates a contact. *)
Definition contact_call (c : call) : Prop :=
  match c with
  | CreateContact _ _ | UpdateContact _ _ _ => True
  | _ => False
  end.

(** ** Observations on traces and responses *)

(** The lengths of the pauses of a trace, in order. *)
Definition sleeps (tr : list event) : list Q :=
  flat_map (fun e => match e with Slept d => [d] | Called _ _ => [] end) tr.

(** The association look-ups of a trace. *)
Definition association_calls (tr : list event) : list event :=
  filter (fun e => match e with
                   | Called (GetAssociations _ _) _ => true
                   | _ => false
                   end) tr.

(** A field of a JSON response body. *)
Definition body_field (resp : HttpResponse) (k : string) : option json :=
  match resp_body resp with
  | JsonDumps (JObj kv) => dict_get kv k
  | _ => None
  end.

(** The response invariant of section 4.1. *)
Definition cors_and_status (resp : HttpResponse) : Prop :=
  In ("Access-Control-Allow-Origin", "*") (resp_headers resp) /\
  In (resp_status resp) [200; 400; 405; 500].

(** A value Python can hash, hence use as a dictionary key: anything but
    a list or a dict. *)
Definition hashable (v : json) : Prop :=
  match v with
  | JList _ | JObj _ => False
  | _ => True
  end.

(** [m] can only return a value satisfying [Q] (it may also raise). *)
Definition post {A} (Q : A -> Prop) (m : M A) : Prop :=
  forall tr, match fst (m tr) with
             | Ok a => Q a
             | Raise _ => True
             end.

(** [m] only adds events at the end of the trace. *)
Definition extends {A} (m : M A) : Prop :=
  forall tr, exists more, snd (m tr) = tr ++ more.

(** [m] has no effect at all. *)
Definition silent {A} (m : M A) : Prop :=
  forall tr, snd (m tr) = tr.

(** The world [w] with the answers to the "update company" calls replaced
    by those of [answers]; everything else is as in [w]. *)
Definition with_company_update_answers (w : World)
    (answers : list event -> call -> outcome) : World :=
  {| crm := fun history c =>
              match c with
              | UpdateCompany _ _ _ => answers history c
              | _ => crm w history c
              end;
     countries_get := countries_get w;
     str_exn := str_exn w;
     utcnow_isoformat := utcnow_isoformat w;
     HUBSPOT_TOKEN := HUBSPOT_TOKEN w |}.

(** The delays the backoff of [wait_for_company_association] can reach
    in [n] steps from [d]: d, 1.5 d, 2.25 d, ... *)
Fixpoint backoff_delays (n : nat) (d : Q) : list Q :=
  match n with
  | O => []
  | S n' => d :: backoff_delays n' (Qred (d * (3 # 2)))
  end.

(** The events the poller for [contact_id] may add to a trace: its own
    association look-ups, and pauses. *)
Definition poll_event (contact_id : json) (headers : http_headers)
    (e : event) : Prop :=
  match e with
  | Called (GetAssociations c h) _ => c = contact_id /\ h = headers
  | Called _ _ => False
  | Slept _ => True
  end.

(** The pauses a run of the handler can make: the backoff of the
    new-contact policy (5 attempts from 2 seconds). *)
Definition handler_pauses : list Q := [2 # 1; 3 # 1; 9 # 2; 27 # 4].

(** The calls that may open a run: nothing, the create call alone, or the
    create call answered 409 followed by the update by e-mail with the
    same headers and record. *)
Definition opening (pre : list event) : Prop :=
  pre = [] \/
  (exists headers payload answer,
     pre = [Called (CreateContact headers payload) answer]) \/
  (exists headers payload r email answer,
     status_code r = 409 /\
     pre = [ Called (CreateContact headers payload) (Returned r);
             Called (UpdateContact email headers payload) answer ]).

(** The polling phase of a run: look-ups for one contact and pauses,
    within the bounds of the new-contact policy. *)
Definition polling (polls : list event) : Prop :=
  (exists contact_id headers, Forall (poll_event contact_id headers) polls) /\
  (List.length (association_calls polls) <= 5)%nat /\
  (List.length (sleeps polls) <= 4)%nat /\
  incl (sleeps polls) handler_pauses /\
  (polls <> [] -> (1 <= List.length (association_calls polls))%nat).

(** The end of a run: nothing, or one company update. *)
Definition closing (post : list event) : Prop :=
  post = [] \/
  exists company_id headers payload answer,
    post = [Called (UpdateCompany company_id headers payload) answer].

(** A JSON answer of the handler: status 200, 400 or 500 and a body
    with a "message" string. *)
Definition message_and_status (resp : HttpResponse) : Prop :=
  (resp_status resp = 200 \/ resp_status resp = 400 \/ resp_status resp = 500) /\
  exists m, body_field resp "message" = Some (JStr m).

(** ** Sample worlds and requests *)

Module Sample.

Definition quoted (s : string) : string :=
  (String (ascii_of_nat 34) s ++ String (ascii_of_nat 34) EmptyString)%string.

(** A two-line country table; like recent [pycountry], it refuses a key
    that is not a string. *)
Definition country_table (v : json) : pyresult (option string) :=
  match v with
  | JStr s =>
      if (s =? "US")%string then Ok (Some "United States")
      else if (s =? "CH")%string then Ok (Some "Switzerland")
      else Ok None
  | _ => Raise LookupError
  end.

Definition render_exn (e : exn) : string :=
  match e with
  | TypeError => "TypeError"
  | AttributeError => "AttributeError"
  | KeyError key => quoted key
  | IndexError => "list index out of range"
  | ValueError => "ValueError"
  | OverflowError => "OverflowError"
  | LookupError => "LookupError"
  | JSONDecodeError => "Expecting value: line 1 column 1 (char 0)"
  | UnicodeDecodeError => "UnicodeDecodeError"
  | RequestException msg => msg
  end.

Definition world (answers : list event -> call -> outcome)
    (token : option string) : World :=
  {| crm := answers;
     countries_get := country_table;
     str_exn := render_exn;
     utcnow_isoformat := "2024-05-01T12:00:00.000000";
     HUBSPOT_TOKEN := token |}.

Definition id42_text : string := ("{" ++ quoted "id" ++ ": 42}")%string.

Definition json_reply (status : Z) (raw : string) (parsed : json) : outcome :=
  Returned {| status_code := status; text := raw; json_body := Some parsed |}.

Definition text_reply (status : Z) (raw : string) : outcome :=
  Returned {| status_code := status; text := raw; json_body := None |}.

Definition timed_out : outcome := Failed (RequestException "Read timed out.").

Definition user_details (country : list (string * json)) : json :=
  JObj ([ ("Email", JStr "ada@example.org");
          ("FirstName", JStr "Ada");
          ("LastName", JStr "Lovelace") ] ++ country).

Definition post (data : list (string * json)) : HttpRequest :=
  {| method := "POST"; body := BodyJson (JObj data) |}.

(** A well-formed lead from the United States. *)
Definition lead : HttpRequest :=
  post [ ("UserDetails", user_details [("Country", JStr "US")]);
         ("OfferTitle", JStr "BPACRM365") ].

Definition headers : http_headers :=
  [ ("Authorization", "Bearer pat-123"); ("Content-Type", "application/json") ].

Definition one_company : json :=
  JObj [("results", JList [JObj [("toObjectId", JInt 99)]])].

(** The CRM creates contact 42, has company 99 associated at once, and
    answers the company update with [update_status]. *)
Definition crm_company_update (update_status : Z) (_ : list event) (c : call)
    : outcome :=
  match c with
  | CreateContact _ _ => json_reply 201 id42_text (JObj [("id", JInt 42)])
  | UpdateContact _ _ _ => json_reply 200 id42_text (JObj [("id", JInt 42)])
  | GetAssociations _ _ => json_reply 200 "one association" one_company
  | UpdateCompany _ _ _ => text_reply update_status ""
  end.

(** The association endpoint never answers. *)
Definition crm_associations_time_out (_ : list event) (c : call) : outcome :=
  match c with
  | GetAssociations _ _ => timed_out
  | _ => json_reply 201 id42_text (JObj [("id", JInt 42)])
  end.

(** The contact exists already; the update by e-mail answers
    [update_answer]; no company is associated. *)
Definition crm_conflict (update_answer : outcome) (_ : list event) (c : call)
    : outcome :=
  match c with
  | CreateContact _ _ => text_reply 409 "Contact already exists"
  | UpdateContact _ _ _ => update_answer
  | GetAssociations _ _ => json_reply 200 "no association" (JObj [("results", JList [])])
  | UpdateCompany _ _ _ => text_reply 200 ""
  end.

(** The CRM is down: every call answers 503 with an HTML page. *)
Definition crm_unavailable (_ : list event) (_ : call) : outcome :=
  text_reply 503 "<html>Service Unavailable</html>".

End Sample.

(** * Properties *)

(** Case analysis on the innermost scrutinee of the goal. *)
Ltac case_split :=
  match goal with
  | |- context [match ?x with _ => _ end] =>
      lazymatch x with
      | context [match _ with _ => _ end] => fail
      | _ => destruct x
      end
  | |- context [if ?b then _ else _] =>
      lazymatch b with
      | context [match _ with _ => _ end] => fail
      | _ => destruct b
      end
  end.

(** ** Territory Classifier *)

Lemma py_in_In (c : string) (l : list string) :
  py_in (JStr c) l = true <-> In c l.
Proof.
  unfold py_in. rewrite existsb_exists. split.
  - intros [x [Hx E]]. apply String.eqb_eq in E. now subst.
  - intros H. exists c. split; [exact H | apply String.eqb_refl].
Qed.

Lemma py_in_not_In (c : string) (l : list string) :
  py_in (JStr c) l = false <-> ~ In c l.
Proof.
  rewrite <- py_in_In. destruct (py_in (JStr c) l); split; intros H;
    congruence.
Qed.

Lemma tables_agree :
  CompanyTables.filtered_country_codes = Glossary.filtered_country_set /\
  ContactTables.filtered_country_codes = Glossary.filtered_country_set /\
  CompanyTables.a_rated_countries = Glossary.a_rated_tier_set /\
  ContactTables.a_rated_countries = Glossary.a_rated_tier_set.
Proof. repeat split; reflexivity. Qed.

Lemma in_dec_py_in {A} (c : string) (l : list string) (x y : A) :
  (if in_dec string_dec c l then x else y) = (if py_in (JStr c) l then x else y).
Proof.
  destruct (in_dec string_dec c l) as [H | H].
  - apply py_in_In in H. now rewrite H.
  - apply py_in_not_In in H. now rewrite H.
Qed.

(** C3. Both copies of the classifier in the code ([update_company_properties]
    and [HubspotAdd]) compute, for every country code, what the reference
    definition over the Glossary's sets computes: the sales office is
    "BPA US" exactly for the members of the Filtered country set and "BPA CH"
    otherwise, the market tier is "A" exactly for the members of the A-rated
    tier set (which has 18 distinct members) and "B" otherwise, and the
    account manager is "Sebastien Rocco" for "BPA US" and "Damien Emery"
    otherwise. *)
Theorem classifier_refines_glossary (countryCode : string) :
  let code := JStr countryCode in
  let reference := Glossary.classify countryCode in
  (company_sales_office code = Glossary.salesOffice reference /\
   company_market_type code = Glossary.marketTier reference /\
   sales_account_manager (company_sales_office code)
     = Glossary.accountManager reference /\
   contact_sales_office code = Glossary.salesOffice reference /\
   contact_market_type code = Glossary.marketTier reference) /\
  ((company_sales_office code = "BPA US"
      <-> In countryCode Glossary.filtered_country_set) /\
   (company_sales_office code = "BPA CH"
      <-> ~ In countryCode Glossary.filtered_country_set) /\
   (company_market_type code = "A"
      <-> In countryCode Glossary.a_rated_tier_set) /\
   (company_market_type code = "B"
      <-> ~ In countryCode Glossary.a_rated_tier_set) /\
   (sales_account_manager (company_sales_office code) = "Sebastien Rocco"
      <-> company_sales_office code = "BPA US") /\
   (sales_account_manager (company_sales_office code) = "Damien Emery"
      <-> company_sales_office code <> "BPA US")) /\
  List.length Glossary.a_rated_tier_set = 18%nat /\
  NoDup Glossary.a_rated_tier_set.
Proof.
  destruct tables_agree as (T1 & T2 & T3 & T4).
  cbv zeta. split; [| split; [| split]].
  - unfold company_sales_office, company_market_type, contact_sales_office,
      contact_market_type, Glossary.classify; cbn [Glossary.salesOffice
      Glossary.marketTier Glossary.accountManager].
    rewrite T1, T2, T3, T4, !in_dec_py_in.
    destruct (py_in (JStr countryCode) Glossary.filtered_country_set);
      repeat split; reflexivity.
  - unfold company_sales_office, company_market_type.
    rewrite T1, T3, <- !py_in_not_In, <- !py_in_In.
    destruct (py_in (JStr countryCode) Glossary.filtered_country_set),
      (py_in (JStr countryCode) Glossary.a_rated_tier_set);
      cbn; repeat split; intros; try congruence; try discriminate.
  - reflexivity.
  - repeat constructor; cbn; intuition discriminate.
Qed.

(** ** Association Poller *)

(** C2. The poller departs from the reference algorithm after a transport
    error.  With the handler's own parameters (5 attempts, initial delay 2)
    and an association endpoint that times out on every attempt, the code
    catches the errors, makes its five attempts and returns none, as the
    reference does, but it waits 2, 2, 2, 2: the [except] clause sleeps
    without multiplying the delay, where the reference waits
    2, 3, 4.5, 6.75. *)
Theorem poller_keeps_delay_after_transport_error :
  let w := Sample.world Sample.crm_associations_time_out None in
  exists tr_code tr_reference,
    wait_for_company_association w (JInt 42) Sample.headers 5 (2 # 1) []
      = (Ok JNull, tr_code) /\
    PollerReference.poll w (JInt 42) Sample.headers 5 (2 # 1) []
      = (Ok JNull, tr_reference) /\
    List.length (association_calls tr_code) = 5%nat /\
    List.length (association_calls tr_reference) = 5%nat /\
    sleeps tr_code = [2 # 1; 2 # 1; 2 # 1; 2 # 1] /\
    sleeps tr_reference = [2 # 1; 3 # 1; 9 # 2; 27 # 4].
Proof.
  cbv zeta. eexists. eexists.
  split; [vm_compute; reflexivity |].
  split; [vm_compute; reflexivity |].
  repeat split.
Qed.

Lemma backoff_nonnegative (delay : Q) :
  Qle_bool 0 delay = true -> Qle_bool 0 (Qred (delay * (3 # 2))) = true.
Proof.
  rewrite !Qle_bool_iff. intros H. rewrite Qred_correct.
  apply Qmult_le_0_compat; [exact H | discriminate].
Qed.

Lemma poll_step_index (i k : nat) :
  (Z.of_nat i <? Z.of_nat (i + S k) - 1) = match k with O => false | S _ => true end.
Proof.
  destruct k; [apply Z.ltb_ge | apply Z.ltb_lt]; lia.
Qed.

(** Within the range [time.sleep] accepts, a pause is just recorded. *)
Lemma sleep_ok (d : Q) :
  sleepable d = true -> sleep d = (fun tr => (Ok tt, tr ++ [Slept d])).
Proof.
  unfold sleepable, sleep. intros H. apply andb_true_iff in H as [H0 Hmax].
  assert (Hmin : Qle_bool (- sleep_max) d = true).
  { apply Qle_bool_iff. apply Qle_bool_iff in H0.
    apply Qle_trans with 0%Q; [discriminate | exact H0]. }
  now rewrite Hmin, H0, Hmax.
Qed.

Lemma handler_pauses_sleepable (d : Q) :
  In d (backoff_delays 4 (2 # 1)) -> sleepable d = true.
Proof.
  intros [<- | [<- | [<- | [<- | []]]]]; reflexivity.
Qed.




(** ** Shape of the handler's results *)

Lemma post_ret {A} (Q : A -> Prop) a : Q a -> post Q (ret a).
Proof. intros H tr. exact H. Qed.

Lemma post_raise {A} (Q : A -> Prop) e : post Q (raise e).
Proof. intros tr. exact I. Qed.

Lemma post_bind_with {A B} (R : A -> Prop) (Q : B -> Prop) (m : M A)
    (k : A -> M B) :
  post R m -> (forall a, R a -> post Q (k a)) -> post Q (bind m k).
Proof.
  intros Hm Hk tr. unfold bind. specialize (Hm tr).
  destruct (m tr) as [[a | e] tr']; [apply Hk, Hm | exact I].
Qed.

Lemma post_bind {A B} (Q : B -> Prop) (m : M A) (k : A -> M B) :
  (forall a, post Q (k a)) -> post Q (bind m k).
Proof.
  intros Hk. apply post_bind_with with (R := fun _ => True).
  - intros tr. destruct (fst (m tr)); exact I.
  - intros a _. apply Hk.
Qed.

Lemma post_try_except {A} (Q : A -> Prop) (m : M A) (h : exn -> M A) :
  post Q m -> (forall e, post Q (h e)) -> post Q (try_except m h).
Proof.
  intros Hm Hh tr. unfold try_except. specialize (Hm tr).
  destruct (m tr) as [[a | e] tr']; [exact Hm | apply Hh].
Qed.

Ltac post_step :=
  lazymatch goal with
  | |- post _ (ret _) => apply post_ret
  | |- post _ (raise _) => apply post_raise
  | |- post _ (bind _ _) => apply post_bind; intros ?
  | |- post _ (if ?b then _ else _) => destruct b
  | |- post _ (match ?x with _ => _ end) => destruct x
  end.

Lemma cors_and_status_intro status payload mimetype more :
  In status [200; 400; 405; 500] ->
  cors_and_status
    {| resp_status := status; resp_body := payload; resp_mimetype := mimetype;
       resp_headers := ("Access-Control-Allow-Origin", "*") :: more |}.
Proof. intros H. split; [left; reflexivity | exact H]. Qed.

Ltac cors_ok := apply cors_and_status_intro; cbn; tauto.

Lemma resolve_and_respond_post w user headers r contact_created :
  post cors_and_status (resolve_and_respond w user headers r contact_created).
Proof. unfold resolve_and_respond. repeat post_step. cors_ok. Qed.

Lemma create_or_update_post w user hubspot_data headers :
  post cors_and_status (create_or_update w user hubspot_data headers).
Proof.
  unfold create_or_update, after_create.
  post_step. post_step; [post_step; cors_ok |].
  post_step; [| apply resolve_and_respond_post].
  post_step.
  apply post_bind_with with
    (R := fun x => match x with
                   | inl failure => cors_and_status failure
                   | inr _ => True
                   end).
  - apply post_try_except.
    + repeat post_step. exact I.
    + intros e. post_step. cors_ok.
  - intros [failure | r'] H.
    + post_step. exact H.
    + post_step; [post_step; cors_ok | apply resolve_and_respond_post].
Qed.

Lemma HubspotAdd_try_post (w : World) (req : HttpRequest) :
  post cors_and_status (HubspotAdd_try w req).
Proof.
  unfold HubspotAdd_try, build_and_send, build_hubspot_data.
  repeat post_step;
    first [ apply create_or_update_post | cors_ok ].
Qed.

(** The handler always answers: nothing escapes the outer [try]. *)
Lemma HubspotAdd_total (w : World) (req : HttpRequest) (tr : list event) :
  exists resp tr', HubspotAdd w req tr = (Ok resp, tr').
Proof.
  unfold HubspotAdd, try_except, ret.
  destruct (HubspotAdd_try w req tr) as [[resp | e] tr']; eauto.
Qed.

(** C6. Whatever the request and whatever the CRM does, the handler
    returns a response, and that response carries the header
    Access-Control-Allow-Origin: * and a status code among 200, 400, 405
    and 500; this covers every branch, the catch-all included. *)
Theorem response_invariant (w : World) (req : HttpRequest) :
  exists resp tr,
    HubspotAdd w req [] = (Ok resp, tr) /\ cors_and_status resp.
Proof.
  unfold HubspotAdd, try_except.
  pose proof (HubspotAdd_try_post w req []) as H.
  destruct (HubspotAdd_try w req []) as [[resp | e] tr'].
  - exists resp, tr'. split; [reflexivity | exact H].
  - eexists. eexists. split; [reflexivity |]. cors_ok.
Qed.

(** ** Company enrichment *)

(** [update_company_properties] reports a failure by its result, never by
    an exception. *)
Lemma update_company_properties_total w company_id user_country headers tr :
  exists success tr',
    update_company_properties w company_id user_country headers tr
      = (Ok success, tr').
Proof.
  unfold update_company_properties, try_except, bind, ret, lift, send.
  destruct (truthy user_country); [destruct (countries_get w user_country) |];
    cbn; eauto;
    match goal with
    | |- context [crm w tr ?c] => destruct (crm w tr c)
    end; eauto;
    match goal with
    | |- context [status_code ?r =? 200] => destruct (status_code r =? 200)
    end; eauto.
Qed.

(** The poller does not look at the answers to "update company". *)
Lemma poll_loop_ignores_company_update w answers contact_id headers
    max_retries attempts :
  poll_loop (with_company_update_answers w answers) contact_id headers
    max_retries attempts
  = poll_loop w contact_id headers max_retries attempts.
Proof.
  induction attempts as [| attempt rest IH]; [reflexivity |].
  cbn [poll_loop]. rewrite IH. reflexivity.
Qed.

Lemma fst_bind_same {A B} (m : M A) (k1 k2 : A -> M B) tr :
  (forall a tr', fst (k1 a tr') = fst (k2 a tr')) ->
  fst (bind m k1 tr) = fst (bind m k2 tr).
Proof.
  intros H. unfold bind. destruct (m tr) as [[a | e] tr']; [apply H | reflexivity].
Qed.

(** The response built after the contact id is read does not depend on
    what the CRM answers to "update company". *)
Lemma resolve_and_respond_ignores_company_update w answers user headers r
    contact_created tr :
  fst (resolve_and_respond (with_company_update_answers w answers) user
         headers r contact_created tr)
  = fst (resolve_and_respond w user headers r contact_created tr).
Proof.
  unfold resolve_and_respond.
  apply fst_bind_same. intros body_json tr1.
  apply fst_bind_same. intros contact_id tr2.
  unfold wait_for_company_association.
  rewrite !poll_loop_ignores_company_update.
  apply fst_bind_same. intros company_id tr3.
  cbn [utcnow_isoformat with_company_update_answers].
  unfold bind at 1 5. destruct (truthy company_id); [| reflexivity].
  unfold bind at 1 3, lift.
  destruct (py_get_default user "Country" (JStr "")) as [country | e];
    [| reflexivity].
  unfold bind at 1 2.
  destruct (update_company_properties_total
              (with_company_update_answers w answers) company_id country
              headers tr3) as (s1 & tr1' & ->).
  destruct (update_company_properties_total w company_id country headers tr3)
    as (s2 & tr2' & ->).
  reflexivity.
Qed.

Lemma after_create_ignores_company_update w answers user hubspot_data
    headers r tr :
  fst (after_create (with_company_update_answers w answers) user hubspot_data
         headers r tr)
  = fst (after_create w user hubspot_data headers r tr).
Proof.
  unfold after_create.
  destruct (status_code r =? 400); [reflexivity |].
  destruct (status_code r =? 409);
    [| apply resolve_and_respond_ignores_company_update].
  apply fst_bind_same. intros email tr1.
  apply fst_bind_same. intros [failure | r'] tr2; [reflexivity |].
  destruct (status_code r' =? 400); [reflexivity |].
  apply resolve_and_respond_ignores_company_update.
Qed.

(** X7. Whatever the request and the CRM, the handler's response is the same
    whether the company update succeeds or fails: the update is
    best-effort, and its outcome is visible nowhere in the response. *)
Lemma response_ignores_company_update (w : World)
    (answers : list event -> call -> outcome) (req : HttpRequest) :
  fst (HubspotAdd (with_company_update_answers w answers) req [])
  = fst (HubspotAdd w req []).
Proof.
  assert (Htry : fst (HubspotAdd_try (with_company_update_answers w answers)
                        req [])
                 = fst (HubspotAdd_try w req [])).
  { unfold HubspotAdd_try.
    destruct (method req =? "OPTIONS")%string; [reflexivity |].
    destruct (negb (method req =? "POST")%string); [reflexivity |].
    destruct (body req) as [data | | e]; try reflexivity.
    apply fst_bind_same. intros has_user tr1.
    destruct (negb has_user); [reflexivity |].
    apply fst_bind_same. intros user tr2.
    apply fst_bind_same. intros [field |] tr3; [reflexivity |].
    unfold build_and_send.
    apply fst_bind_same. intros hubspot_data tr4.
    cbn [HUBSPOT_TOKEN with_company_update_answers].
    destruct (HUBSPOT_TOKEN w) as [[| c token'] |]; try reflexivity.
    unfold create_or_update.
    apply fst_bind_same. intros r tr5.
    apply after_create_ignores_company_update. }
  unfold HubspotAdd, try_except.
  destruct (HubspotAdd_try (with_company_update_answers w answers) req [])
    as [[resp1 | e1] tr1],
    (HubspotAdd_try w req []) as [[resp2 | e2] tr2];
    unfold ret, internal_server_error; cbn in Htry |- *; congruence.
Qed.

(** C1. A failed company update goes unreported.  The CRM creates contact
    42 and has company 99 associated; the "update company" call is
    answered with HTTP 500.  The handler still answers 200, and with
    "company_updated": true, the very response it gives when the update is
    answered with HTTP 200: the flag is computed from the company id, not
    from the result of the update. *)
Theorem company_update_failure_reported_as_updated :
  let failing := Sample.world (Sample.crm_company_update 500) (Some "pat-123") in
  let passing := Sample.world (Sample.crm_company_update 200) (Some "pat-123") in
  exists resp tr company_update_data,
    HubspotAdd failing Sample.lead [] = (Ok resp, tr) /\
    last tr (Slept 0)
      = Called (UpdateCompany (JInt 99) Sample.headers company_update_data)
               (Sample.text_reply 500 "") /\
    resp_status resp = 200 /\
    body_field resp "company_updated" = Some (JBool true) /\
    fst (HubspotAdd passing Sample.lead []) = Ok resp.
Proof.
  cbv zeta. eexists. eexists. eexists.
  split; [vm_compute; reflexivity |].
  split; [vm_compute; reflexivity |].
  repeat split.
Qed.

(** ** Input validation *)

Lemma first_missing_dict user field fields o :
  first_missing user (field :: fields) = Ok o -> exists u, user = JObj u.
Proof.
  destruct user; cbn; try discriminate. eauto.
Qed.

(** The loop stops at the first falsy field. *)
Lemma first_missing_first u before field after :
  (forall f, In f before -> truthy (dict_get_default u f JNull) = true) ->
  truthy (dict_get_default u field JNull) = false ->
  first_missing (JObj u) (before ++ field :: after) = Ok (Some field).
Proof.
  intros Hbefore Hfield. induction before as [| f before IH]; cbn.
  - now rewrite Hfield.
  - rewrite (Hbefore f (or_introl eq_refl)). cbn. apply IH.
    intros g Hg. apply Hbefore. now right.
Qed.

(** The handler on a POST whose JSON body is an object holding
    UserDetails: everything hinges on the required-field loop. *)
Lemma HubspotAdd_try_user (w : World) (req : HttpRequest)
    (data : list (string * json)) (user : json) (tr : list event) :
  method req = "POST" ->
  body req = BodyJson (JObj data) ->
  dict_get data "UserDetails" = Some user ->
  HubspotAdd_try w req tr =
  match first_missing user required_fields with
  | Raise e => (Raise e, tr)
  | Ok (Some field) =>
      (Ok {| resp_status := 400;
             resp_body := JsonDumps (JObj
               [("message", JStr ("Required field missing: " ++ field)%string)]);
             resp_mimetype := Some "application/json";
             resp_headers := [("Access-Control-Allow-Origin", "*")] |}, tr)
  | Ok None => build_and_send w (JObj data) user tr
  end.
Proof.
  intros Hmethod Hbody Huser.
  unfold HubspotAdd_try, bind, lift, ret.
  rewrite Hmethod, Hbody.
  cbn -[first_missing required_fields build_and_send].
  rewrite Huser. cbn -[first_missing required_fields build_and_send].
  destruct (first_missing user required_fields) as [[field |] | e];
    reflexivity.
Qed.

(** C5. For a POST whose JSON body holds UserDetails, the fields Email,
    FirstName, LastName are checked in that order: if [field] is the first
    of them whose value [user.get(field)] is falsy (absent, empty, or
    otherwise false in Python), the answer is 400 with body
    {"message": "Required field missing: <field>"} naming that field, and
    no CRM call is made. *)
Theorem required_field_order (w : World) (req : HttpRequest)
    (data : list (string * json)) (user : json)
    (before after : list string) (field : string) :
  method req = "POST" ->
  body req = BodyJson (JObj data) ->
  dict_get data "UserDetails" = Some user ->
  required_fields = before ++ field :: after ->
  (forall f, In f before ->
     exists v, py_get user f = Ok v /\ truthy v = true) ->
  (exists v, py_get user field = Ok v /\ truthy v = false) ->
  HubspotAdd w req []
  = (Ok {| resp_status := 400;
           resp_body := JsonDumps (JObj
             [("message", JStr ("Required field missing: " ++ field)%string)]);
           resp_mimetype := Some "application/json";
           resp_headers := [("Access-Control-Allow-Origin", "*")] |},
     []).
Proof.
  intros Hmethod Hbody Huser Hfields Hbefore (v & Hv & Hfalsy).
  destruct user as [| | | | | | u]; try discriminate.
  cbn [py_get] in Hv. injection Hv as <-.
  assert (H : first_missing (JObj u) required_fields = Ok (Some field)).
  { rewrite Hfields. apply first_missing_first; [| exact Hfalsy].
    intros f Hf. destruct (Hbefore f Hf) as (v' & Hv' & Htruthy).
    cbn [py_get] in Hv'. now injection Hv' as <-. }
  unfold HubspotAdd, try_except.
  rewrite (HubspotAdd_try_user w req data (JObj u) [] Hmethod Hbody Huser), H.
  reflexivity.
Qed.

(** A missing FirstName with valid Email and LastName yields exactly
    {"message": "Required field missing: FirstName"}. *)
Lemma required_field_order_witness :
  HubspotAdd (Sample.world Sample.crm_unavailable None)
    (Sample.post [("UserDetails",
                   JObj [ ("Email", JStr "ada@example.org");
                          ("LastName", JStr "Lovelace") ])]) []
  = (Ok {| resp_status := 400;
           resp_body := JsonDumps (JObj
             [("message", JStr "Required field missing: FirstName")]);
           resp_mimetype := Some "application/json";
           resp_headers := [("Access-Control-Allow-Origin", "*")] |},
     []).
Proof.
  apply (required_field_order (Sample.world Sample.crm_unavailable None) _
           [("UserDetails",
             JObj [ ("Email", JStr "ada@example.org");
                    ("LastName", JStr "Lovelace") ])]
           (JObj [ ("Email", JStr "ada@example.org");
                   ("LastName", JStr "Lovelace") ])
           ["Email"] ["LastName"] "FirstName");
    try reflexivity.
  - intros f [<- | []]. exists (JStr "ada@example.org"). split; reflexivity.
  - exists JNull. split; reflexivity.
Defined.

(** C9. When UserDetails is bound to anything but an object (a string, a
    number, a list, null, a boolean), the required-field check raises on
    its first attribute access; the answer is not a 400 but the catch-all
    500 with message "Internal server error", and no CRM call is made. *)
Theorem non_object_user_details (w : World) (req : HttpRequest)
    (data : list (string * json)) (user : json) :
  method req = "POST" ->
  body req = BodyJson (JObj data) ->
  dict_get data "UserDetails" = Some user ->
  (forall u, user <> JObj u) ->
  HubspotAdd w req []
  = (Ok {| resp_status := 500;
           resp_body := JsonDumps (JObj
             [ ("message", JStr "Internal server error");
               ("error", JStr (str_exn w AttributeError)) ]);
           resp_mimetype := Some "application/json";
           resp_headers := [("Access-Control-Allow-Origin", "*")] |},
     []).
Proof.
  intros Hmethod Hbody Huser Hnot.
  unfold HubspotAdd, try_except.
  rewrite (HubspotAdd_try_user w req data user [] Hmethod Hbody Huser).
  destruct user; try reflexivity. now elim (Hnot kv).
Qed.

Lemma non_object_user_details_witness :
  fst (HubspotAdd (Sample.world Sample.crm_unavailable (Some "pat-123"))
         (Sample.post [("UserDetails", JStr "ada@example.org")]) [])
  = Ok {| resp_status := 500;
          resp_body := JsonDumps (JObj
            [ ("message", JStr "Internal server error");
              ("error", JStr "AttributeError") ]);
          resp_mimetype := Some "application/json";
          resp_headers := [("Access-Control-Allow-Origin", "*")] |}.
Proof.
  rewrite (non_object_user_details
             (Sample.world Sample.crm_unavailable (Some "pat-123")) _
             [("UserDetails", JStr "ada@example.org")]
             (JStr "ada@example.org"));
    try reflexivity.
  intros u. discriminate.
Defined.

(** ** The contact record and the token *)

Lemma solution_map_get_hashable (raw_solution : json) :
  hashable raw_solution -> exists v, solution_map_get raw_solution = Ok v.
Proof.
  unfold hashable, solution_map_get.
  destruct raw_solution; try contradiction; intros _;
    try (eexists; reflexivity).
  destruct (assoc_string solution_map s); eexists; reflexivity.
Qed.

(** Building the contact record makes no call; it succeeds when the
    offer title can be hashed and the country table answers. *)
Lemma build_hubspot_data_ok (w : World) (data u : list (string * json)) :
  hashable (dict_get_default data "OfferTitle" (JStr "")) ->
  (truthy (dict_get_default u "Country" (JStr "")) = true ->
   exists name,
     countries_get w (dict_get_default u "Country" (JStr "")) = Ok name) ->
  exists hubspot_data,
    forall tr, build_hubspot_data w (JObj data) (JObj u) tr = (Ok hubspot_data, tr).
Proof.
  intros Hoffer Hcountry.
  destruct (solution_map_get_hashable _ Hoffer) as [solution_value Hs].
  unfold build_hubspot_data, bind, lift, ret. cbn [py_get_default].
  rewrite Hs.
  destruct (truthy (dict_get_default u "Country" (JStr ""))).
  - destruct (Hcountry eq_refl) as [name ->]. eauto.
  - eauto.
Qed.

Lemma build_hubspot_data_silent (w : World) (data user : json) :
  silent (build_hubspot_data w data user).
Proof.
  intros tr. unfold build_hubspot_data, bind, lift, ret.
  repeat match goal with
         | |- context [match ?x with _ => _ end] =>
             lazymatch x with
             | context [match _ with _ => _ end] => fail
             | _ => destruct x
             end
         | |- context [if ?b then _ else _] => destruct b
         end; reflexivity.
Qed.

(** X6. Without a token the handler makes no outbound call, whatever the
    request. *)
Lemma no_token_no_call (w : World) (req : HttpRequest) :
  HUBSPOT_TOKEN w = None \/ HUBSPOT_TOKEN w = Some "" ->
  snd (HubspotAdd w req []) = [].
Proof.
  intros Htoken.
  unfold HubspotAdd, try_except, HubspotAdd_try, build_and_send, bind at 1 2 3 4.
  destruct (method req =? "OPTIONS")%string; [reflexivity |].
  destruct (negb (method req =? "POST")%string); [reflexivity |].
  destruct (body req) as [data | | e]; try reflexivity.
  unfold lift, ret.
  destruct (py_contains "UserDetails" data) as [[|] | e]; try reflexivity.
  cbn [negb].
  destruct (py_getitem data "UserDetails") as [user | e]; try reflexivity.
  destruct (first_missing user required_fields) as [[field |] | e];
    try reflexivity.
  pose proof (build_hubspot_data_silent w data user []) as Hsilent.
  destruct (build_hubspot_data w data user []) as [[hubspot_data | e] tr'];
    cbn in Hsilent; subst tr'; [| reflexivity].
  destruct Htoken as [-> | ->]; reflexivity.
Qed.

(** C7, as stated, fails: a POST that passes the validation of steps 1-4
    but whose OfferTitle is a list reaches the solution-map look-up before
    the token is read; the look-up raises, and the answer is the catch-all
    500, not the missing-token message. *)
Lemma missing_token_counterexample :
  let w := Sample.world Sample.crm_unavailable None in
  let req := Sample.post [ ("UserDetails", Sample.user_details []);
                           ("OfferTitle", JList []) ] in
  method req = "POST" /\
  first_missing (Sample.user_details []) required_fields = Ok None /\
  HUBSPOT_TOKEN w = None /\
  HubspotAdd w req []
  = (Ok {| resp_status := 500;
           resp_body := JsonDumps (JObj
             [ ("message", JStr "Internal server error");
               ("error", JStr (str_exn w TypeError)) ]);
           resp_mimetype := Some "application/json";
           resp_headers := [("Access-Control-Allow-Origin", "*")] |},
     []) /\
  (forall resp tr,
     HubspotAdd w req [] = (Ok resp, tr) ->
     body_field resp "message"
       <> Some (JStr "Server misconfiguration: missing token")).
Proof.
  cbv zeta. repeat split.
  intros resp tr H. vm_compute in H. injection H as <- _. discriminate.
Qed.

(** C7, amended.  For a POST that passes the validation of steps 1-4,
    whose OfferTitle (if any) is not a list or an object, and for whose
    Country the country table answers, a missing (or empty) token yields
    500 with body {"message": "Server misconfiguration: missing token"},
    and no outbound CRM call is made. *)
Theorem missing_token_detected_locally (w : World) (req : HttpRequest)
    (data u : list (string * json)) :
  method req = "POST" ->
  body req = BodyJson (JObj data) ->
  dict_get data "UserDetails" = Some (JObj u) ->
  first_missing (JObj u) required_fields = Ok None ->
  hashable (dict_get_default data "OfferTitle" (JStr "")) ->
  (truthy (dict_get_default u "Country" (JStr "")) = true ->
   exists name,
     countries_get w (dict_get_default u "Country" (JStr "")) = Ok name) ->
  HUBSPOT_TOKEN w = None \/ HUBSPOT_TOKEN w = Some "" ->
  HubspotAdd w req []
  = (Ok {| resp_status := 500;
           resp_body := JsonDumps (JObj
             [("message", JStr "Server misconfiguration: missing token")]);
           resp_mimetype := Some "application/json";
           resp_headers := [("Access-Control-Allow-Origin", "*")] |},
     []).
Proof.
  intros Hmethod Hbody Huser Hvalid Hoffer Hcountry Htoken.
  destruct (build_hubspot_data_ok w data u Hoffer Hcountry) as [hd Hhd].
  unfold HubspotAdd, try_except.
  rewrite (HubspotAdd_try_user w req data (JObj u) [] Hmethod Hbody Huser),
    Hvalid.
  unfold build_and_send, bind. rewrite Hhd.
  destruct Htoken as [-> | ->]; reflexivity.
Qed.

Lemma missing_token_detected_locally_witness :
  HubspotAdd (Sample.world Sample.crm_unavailable None) Sample.lead []
  = (Ok {| resp_status := 500;
           resp_body := JsonDumps (JObj
             [("message", JStr "Server misconfiguration: missing token")]);
           resp_mimetype := Some "application/json";
           resp_headers := [("Access-Control-Allow-Origin", "*")] |},
     []).
Proof.
  apply (missing_token_detected_locally
           (Sample.world Sample.crm_unavailable None) Sample.lead
           [ ("UserDetails", Sample.user_details [("Country", JStr "US")]);
             ("OfferTitle", JStr "BPACRM365") ]
           [ ("Email", JStr "ada@example.org"); ("FirstName", JStr "Ada");
             ("LastName", JStr "Lovelace"); ("Country", JStr "US") ]);
    try reflexivity.
  - intros _. exists (Some "United States"). reflexivity.
  - left. reflexivity.
Defined.

(** ** Empty and absent fields *)

Section EmptyOrAbsent.

Variables u1 u2 : list (string * json).
Variable k : string.
Hypothesis Hempty : dict_get u1 k = Some (JStr "").
Hypothesis Habsent : dict_get u2 k = None.
Hypothesis Hothers : forall key, key <> k -> dict_get u1 key = dict_get u2 key.

Lemma get_or_empty_same key :
  dict_get_default u1 key (JStr "") = dict_get_default u2 key (JStr "").
Proof.
  unfold dict_get_default. destruct (string_dec key k) as [-> | Hk].
  - now rewrite Hempty, Habsent.
  - now rewrite (Hothers key Hk).
Qed.

Lemma get_truthy_same key :
  truthy (dict_get_default u1 key JNull) = truthy (dict_get_default u2 key JNull).
Proof.
  unfold dict_get_default. destruct (string_dec key k) as [-> | Hk].
  - now rewrite Hempty, Habsent.
  - now rewrite (Hothers key Hk).
Qed.

Lemma first_missing_same fields :
  first_missing (JObj u1) fields = first_missing (JObj u2) fields.
Proof.
  induction fields as [| field fields IH]; [reflexivity |].
  cbn [first_missing py_get]. rewrite get_truthy_same, IH. reflexivity.
Qed.

(** A field that passed the check is truthy, hence is not [k]. *)
Lemma first_missing_none_truthy u fields field :
  first_missing (JObj u) fields = Ok None -> In field fields ->
  truthy (dict_get_default u field JNull) = true.
Proof.
  induction fields as [| f fields IH]; [intros _ [] |].
  cbn [first_missing py_get].
  destruct (truthy (dict_get_default u f JNull)) eqn:E; cbn [negb];
    [| discriminate].
  intros H [<- | Hin]; [exact E | now apply IH].
Qed.

Lemma email_same :
  first_missing (JObj u1) required_fields = Ok None ->
  py_getitem (JObj u1) "Email" = py_getitem (JObj u2) "Email".
Proof.
  intros H.
  pose proof (first_missing_none_truthy u1 required_fields "Email" H
                (or_introl eq_refl)) as Htruthy.
  unfold py_getitem. destruct (string_dec "Email" k) as [<- | Hk].
  - unfold dict_get_default in Htruthy. rewrite Hempty in Htruthy.
    discriminate.
  - now rewrite (Hothers "Email" Hk).
Qed.

End EmptyOrAbsent.

Lemma create_or_update_same_user w user1 user2 :
  py_get_default user1 "Country" (JStr "")
    = py_get_default user2 "Country" (JStr "") ->
  py_getitem user1 "Email" = py_getitem user2 "Email" ->
  create_or_update w user1 = create_or_update w user2.
Proof.
  intros Hcountry Hemail.
  unfold create_or_update, after_create, resolve_and_respond.
  now rewrite Hemail, Hcountry.
Qed.

(** C8. Two request bodies that differ only in that one field [k] of
    UserDetails is the empty string in the first and absent in the second
    are treated alike: the required-field check has the same outcome, the
    same contact record is built, the territory classification is the
    same, and the whole run of the handler (the response and every call
    made to the CRM) is identical. *)
Theorem empty_field_equals_absent_field (w : World) (verb : string)
    (data1 data2 u1 u2 : list (string * json)) (k : string) :
  dict_get data1 "UserDetails" = Some (JObj u1) ->
  dict_get data2 "UserDetails" = Some (JObj u2) ->
  (forall key, key <> "UserDetails" -> dict_get data1 key = dict_get data2 key) ->
  dict_get u1 k = Some (JStr "") ->
  dict_get u2 k = None ->
  (forall key, key <> k -> dict_get u1 key = dict_get u2 key) ->
  first_missing (JObj u1) required_fields
    = first_missing (JObj u2) required_fields /\
  build_hubspot_data w (JObj data1) (JObj u1)
    = build_hubspot_data w (JObj data2) (JObj u2) /\
  contact_sales_office (dict_get_default u1 "Country" (JStr ""))
    = contact_sales_office (dict_get_default u2 "Country" (JStr "")) /\
  contact_market_type (dict_get_default u1 "Country" (JStr ""))
    = contact_market_type (dict_get_default u2 "Country" (JStr "")) /\
  HubspotAdd w {| method := verb; body := BodyJson (JObj data1) |} []
    = HubspotAdd w {| method := verb; body := BodyJson (JObj data2) |} [].
Proof.
  intros Hu1 Hu2 Hdata Hempty Habsent Hothers.
  pose proof (get_or_empty_same u1 u2 k Hempty Habsent Hothers) as Hget.
  pose proof (first_missing_same u1 u2 k Hempty Habsent Hothers
                required_fields) as Hcheck.
  assert (Hd : forall key, key <> "UserDetails" ->
            py_get_default (JObj data1) key (JStr "")
              = py_get_default (JObj data2) key (JStr "")).
  { intros key Hkey. unfold py_get_default, dict_get_default.
    now rewrite (Hdata key Hkey). }
  assert (Hbuild : build_hubspot_data w (JObj data1) (JObj u1)
                     = build_hubspot_data w (JObj data2) (JObj u2)).
  { unfold build_hubspot_data.
    rewrite (Hd "OfferTitle") by discriminate.
    rewrite (Hd "Description") by discriminate.
    cbn [py_get_default]. now rewrite !Hget. }
  split; [exact Hcheck |]. split; [exact Hbuild |].
  rewrite !Hget. repeat split.
  unfold HubspotAdd, try_except.
  destruct (String.eqb_spec verb "POST") as [-> | Hverb].
  - rewrite (HubspotAdd_try_user w
               {| method := "POST"; body := BodyJson (JObj data1) |}
               data1 (JObj u1) [] eq_refl eq_refl Hu1),
      (HubspotAdd_try_user w
         {| method := "POST"; body := BodyJson (JObj data2) |}
         data2 (JObj u2) [] eq_refl eq_refl Hu2),
      <- Hcheck.
    destruct (first_missing (JObj u1) required_fields) as [[field |] | e] eqn:E;
      try reflexivity.
    unfold build_and_send. rewrite Hbuild.
    rewrite (create_or_update_same_user w (JObj u1) (JObj u2)).
    + reflexivity.
    + cbn [py_get_default]. now rewrite Hget.
    + eapply email_same; eassumption.
  - unfold HubspotAdd_try. cbn [method].
    destruct (verb =? "OPTIONS")%string; [reflexivity |].
    apply String.eqb_neq in Hverb. rewrite Hverb. reflexivity.
Qed.

Lemma empty_field_equals_absent_field_witness :
  HubspotAdd (Sample.world (Sample.crm_company_update 200) (Some "pat-123"))
    (Sample.post [("UserDetails", Sample.user_details [("Country", JStr "")])])
    []
  = HubspotAdd (Sample.world (Sample.crm_company_update 200) (Some "pat-123"))
      (Sample.post [("UserDetails", Sample.user_details [])]) [].
Proof.
  apply (empty_field_equals_absent_field
           (Sample.world (Sample.crm_company_update 200) (Some "pat-123"))
           "POST"
           [("UserDetails", Sample.user_details [("Country", JStr "")])]
           [("UserDetails", Sample.user_details [])]
           [ ("Email", JStr "ada@example.org"); ("FirstName", JStr "Ada");
             ("LastName", JStr "Lovelace"); ("Country", JStr "") ]
           [ ("Email", JStr "ada@example.org"); ("FirstName", JStr "Ada");
             ("LastName", JStr "Lovelace") ]
           "Country");
    try reflexivity.
  - intros key Hkey. cbn [dict_get].
    destruct (String.eqb_spec "UserDetails" key) as [E | _];
      [now elim Hkey | reflexivity].
  - intros key Hkey. cbn [dict_get].
    destruct (String.eqb_spec "Country" key) as [E | _];
      [now elim Hkey | reflexivity].
Defined.

(** ** The trace only grows *)

Lemma extends_ret {A} (a : A) : extends (ret a).
Proof. intros tr. exists []. cbn. now rewrite app_nil_r. Qed.

Lemma extends_raise {A} e : extends (@raise A e).
Proof. intros tr. exists []. cbn. now rewrite app_nil_r. Qed.

Lemma extends_lift {A} (r : pyresult A) : extends (lift r).
Proof. intros tr. exists []. cbn. now rewrite app_nil_r. Qed.

Lemma extends_send w c : extends (send w c).
Proof.
  intros tr. unfold send. destruct (crm w tr c); eexists; reflexivity.
Qed.

Lemma extends_sleep d : extends (sleep d).
Proof.
  intros tr. unfold sleep.
  destruct (Qle_bool (- sleep_max) d && Qle_bool d sleep_max);
    [destruct (Qle_bool 0 d) |];
    first [ eexists; reflexivity | exists []; cbn; now rewrite app_nil_r ].
Qed.

Lemma extends_bind {A B} (m : M A) (k : A -> M B) :
  extends m -> (forall a, extends (k a)) -> extends (bind m k).
Proof.
  intros Hm Hk tr. unfold bind. destruct (Hm tr) as [more1 H1].
  destruct (m tr) as [[a | e] tr']; cbn in H1; subst tr'.
  - destruct (Hk a (tr ++ more1)) as [more2 H2].
    exists (more1 ++ more2). now rewrite H2, app_assoc.
  - now exists more1.
Qed.

Lemma extends_try_except {A} (m : M A) (h : exn -> M A) :
  extends m -> (forall e, extends (h e)) -> extends (try_except m h).
Proof.
  intros Hm Hh tr. unfold try_except. destruct (Hm tr) as [more1 H1].
  destruct (m tr) as [[a | e] tr']; cbn in H1; subst tr'.
  - now exists more1.
  - destruct (Hh e (tr ++ more1)) as [more2 H2].
    exists (more1 ++ more2). now rewrite H2, app_assoc.
Qed.

Ltac extends_step :=
  lazymatch goal with
  | |- extends (ret _) => apply extends_ret
  | |- extends (raise _) => apply extends_raise
  | |- extends (lift _) => apply extends_lift
  | |- extends (send _ _) => apply extends_send
  | |- extends (sleep _) => apply extends_sleep
  | |- extends (bind _ _) => apply extends_bind; [| intros ?]
  | |- extends (try_except _ _) => apply extends_try_except; [| intros ?]
  | |- extends (if ?b then _ else _) => destruct b
  | |- extends (match ?x with _ => _ end) => destruct x
  end.

Lemma extends_poll_loop w contact_id headers max_retries attempts :
  forall delay,
    extends (poll_loop w contact_id headers max_retries attempts delay).
Proof.
  induction attempts as [| attempt rest IH]; intros delay;
    cbn [poll_loop]; [apply extends_ret |].
  unfold poll_try, poll_except.
  extends_step.
  - repeat extends_step.
  - destruct a; [apply extends_ret | apply IH].
Qed.

Lemma extends_wait_for_company_association w contact_id headers max_retries
    delay :
  extends (wait_for_company_association w contact_id headers max_retries delay).
Proof. apply extends_poll_loop. Qed.

Lemma extends_update_company_properties w company_id user_country headers :
  extends (update_company_properties w company_id user_country headers).
Proof. unfold update_company_properties. repeat extends_step. Qed.

Lemma extends_resolve_and_respond w user headers r contact_created :
  extends (resolve_and_respond w user headers r contact_created).
Proof.
  unfold resolve_and_respond.
  repeat first [ apply extends_wait_for_company_association
               | apply extends_update_company_properties
               | extends_step ].
Qed.

Lemma extends_after_create w user hubspot_data headers r :
  extends (after_create w user hubspot_data headers r).
Proof.
  unfold after_create.
  repeat first [ apply extends_resolve_and_respond | extends_step ].
Qed.

(** ** From the request to the create call *)

(** Either the handler stops before any outbound call, or the request
    passed validation and the run is that of [create_or_update]. *)
Lemma HubspotAdd_try_reaches_create (w : World) (req : HttpRequest) :
  snd (HubspotAdd_try w req []) = [] \/
  exists data u hubspot_data headers,
    body req = BodyJson (JObj data) /\
    dict_get data "UserDetails" = Some (JObj u) /\
    first_missing (JObj u) required_fields = Ok None /\
    HubspotAdd_try w req []
      = create_or_update w (JObj u) hubspot_data headers [].
Proof.
  destruct (String.eqb_spec (method req) "POST") as [Hpost | Hnot].
  2:{ left. unfold HubspotAdd_try.
      destruct (method req =? "OPTIONS")%string; [reflexivity |].
      apply String.eqb_neq in Hnot. now rewrite Hnot. }
  destruct (body req) as [data | | e] eqn:Hbody.
  2,3: left; unfold HubspotAdd_try; now rewrite Hpost, Hbody.
  assert (Hobj : (exists d user, data = JObj d /\
                    dict_get d "UserDetails" = Some user) \/
                 snd (HubspotAdd_try w req []) = []).
  { unfold HubspotAdd_try, bind, lift, ret. rewrite Hpost, Hbody.
    destruct data as [| | | | s | l | d]; try (now right).
    - right. cbn. now destruct (str_contains "UserDetails" s).
    - right. cbn. now destruct (existsb _ l).
    - destruct (dict_get d "UserDetails") as [user |] eqn:Hget.
      + left. now exists d, user.
      + right. cbn. now rewrite Hget. }
  destruct Hobj as [(d & user & -> & Huser) | Hnone]; [| now left].
  rewrite (HubspotAdd_try_user w req d user [] Hpost Hbody Huser).
  destruct (first_missing user required_fields) as [[field |] | e] eqn:Hcheck;
    try (now left).
  destruct (first_missing_dict _ _ _ _ Hcheck) as [u ->].
  unfold build_and_send, bind.
  pose proof (build_hubspot_data_silent w (JObj d) (JObj u) []) as Hsilent.
  destruct (build_hubspot_data w (JObj d) (JObj u) [])
    as [[hubspot_data | e] tr'];
    cbn in Hsilent; subst tr'; [| now left].
  destruct (HUBSPOT_TOKEN w) as [[| c token'] |]; try (now left).
  right. exists d, u, hubspot_data. eexists.
  repeat split; assumption || reflexivity.
Qed.

(** When the trace of a run starts with an answered create call, the run
    is the one of [after_create] on that answer, under the catch-all. *)
Lemma HubspotAdd_after_create (w : World) (req : HttpRequest)
    (headers : http_headers) (payload : json) (r : response)
    (rest : list event) :
  snd (HubspotAdd w req [])
    = Called (CreateContact headers payload) (Returned r) :: rest ->
  exists data u,
    body req = BodyJson (JObj data) /\
    dict_get data "UserDetails" = Some (JObj u) /\
    first_missing (JObj u) required_fields = Ok None /\
    HubspotAdd w req []
      = try_except (after_create w (JObj u) payload headers r)
          (fun e => ret (internal_server_error w e))
          [Called (CreateContact headers payload) (Returned r)].
Proof.
  intros Htrace. unfold HubspotAdd in *.
  destruct (HubspotAdd_try_reaches_create w req)
    as [Hnone | (data & u & hd & h & Hbody & Huser & Hcheck & Hrun)].
  - exfalso. revert Htrace. unfold try_except, ret.
    destruct (HubspotAdd_try w req []) as [[resp | e] tr'];
      cbn in Hnone |- *; subst tr'; discriminate.
  - exists data, u. repeat split; try assumption.
    revert Htrace. unfold try_except. rewrite Hrun.
    unfold create_or_update, bind, send.
    destruct (crm w [] (CreateContact h hd)) as [r0 | e]; cbn [app].
    + destruct (extends_after_create w (JObj u) hd h r0
                  [Called (CreateContact h hd) (Returned r0)]) as [more Hmore].
      intros Htrace.
      assert (E : Called (CreateContact h hd) (Returned r0)
                  = Called (CreateContact headers payload) (Returned r)).
      { destruct (after_create w (JObj u) hd h r0
                    [Called (CreateContact h hd) (Returned r0)])
          as [[resp | e] tr']; cbn in Hmore, Htrace; subst tr';
          cbn in Htrace; congruence. }
      injection E as -> -> ->. reflexivity.
    + cbn. discriminate.
Qed.

(** ** Contact id extraction *)

(** C10. When the create call is answered with a status other than 400
    and 409 (a 5xx included) and the answer's body is not a JSON object
    with key "id", the extraction of the contact id raises: the handler
    answers with the catch-all 500 "Internal server error", and the create
    call is the only event of the run: no polling, no company update. *)
Theorem contact_id_extraction_unguarded (w : World) (req : HttpRequest)
    (resp : HttpResponse) (tr rest : list event) (headers : http_headers)
    (payload : json) (r : response) :
  HubspotAdd w req [] = (Ok resp, tr) ->
  tr = Called (CreateContact headers payload) (Returned r) :: rest ->
  status_code r <> 400 ->
  status_code r <> 409 ->
  (forall kv, json_body r = Some (JObj kv) -> dict_get kv "id" = None) ->
  rest = [] /\
  resp_status resp = 500 /\
  body_field resp "message" = Some (JStr "Internal server error") /\
  exists e, resp = internal_server_error w e.
Proof.
  intros Hrun -> H400 H409 Hid.
  destruct (HubspotAdd_after_create w req headers payload r rest)
    as (data & u & _ & _ & _ & Hafter); [now rewrite Hrun |].
  rewrite Hrun in Hafter. revert Hafter.
  unfold try_except, after_create.
  apply Z.eqb_neq in H400, H409. rewrite H400, H409.
  unfold resolve_and_respond, bind at 1 2, lift, response_json.
  destruct (json_body r) as [j |] eqn:Hjson.
  - destruct j as [| | | | | | kv]; cbn [py_getitem];
      try rewrite (Hid _ eq_refl);
      unfold ret; cbv beta iota; intros H; injection H as -> ->;
      cbn; eauto 6.
  - unfold ret; intros H; injection H as -> ->; cbn; eauto 6.
Qed.

Lemma contact_id_extraction_unguarded_witness :
  exists resp payload,
    HubspotAdd (Sample.world Sample.crm_unavailable (Some "pat-123"))
      Sample.lead []
    = (Ok resp,
       [Called (CreateContact Sample.headers payload)
               (Sample.text_reply 503 "<html>Service Unavailable</html>")]) /\
    resp_status resp = 500 /\
    body_field resp "message" = Some (JStr "Internal server error").
Proof.
  eexists. eexists. split; [vm_compute; reflexivity |].
  destruct (contact_id_extraction_unguarded
              (Sample.world Sample.crm_unavailable (Some "pat-123"))
              Sample.lead _ _ [] Sample.headers _
              {| status_code := 503;
                 text := "<html>Service Unavailable</html>";
                 json_body := None |}
              ltac:(vm_compute; reflexivity) eq_refl
              ltac:(discriminate) ltac:(discriminate)
              ltac:(discriminate))
    as (_ & Hstatus & Hmessage & _).
  split; [exact Hstatus | exact Hmessage].
Defined.

(** ** Create-or-update reconciliation *)

(** The policy for an existing contact (1 attempt, delay 0): exactly one
    association look-up, no pause, and never an exception. *)
Lemma single_immediate_check w contact_id headers tr :
  exists company_id answer,
    wait_for_company_association w contact_id headers 1 (0 # 1) tr
    = (Ok company_id,
       tr ++ [Called (GetAssociations contact_id headers) answer]).
Proof.
  unfold wait_for_company_association.
  change (range 1) with [0]. cbn [poll_loop].
  unfold poll_try, poll_except, try_except, bind, send, lift, ret.
  change (0 <? 1 - 1) with false. cbv beta iota.
  repeat case_split; eexists; eexists; reflexivity.
Qed.

(** The company update adds at most its own call to the trace. *)
Lemma update_company_properties_trace w company_id user_country headers tr :
  exists success more,
    update_company_properties w company_id user_country headers tr
      = (Ok success, tr ++ more) /\
    sleeps more = [] /\ association_calls more = [].
Proof.
  unfold update_company_properties, try_except, bind, send, lift, ret.
  repeat case_split;
    first [ eexists; eexists; split; [reflexivity | split; reflexivity]
          | exists false, []; rewrite app_nil_r; repeat split ].
Qed.

(** The company update adds nothing or its own call to the trace. *)
Lemma update_company_properties_shape w company_id user_country headers tr :
  exists success more,
    update_company_properties w company_id user_country headers tr
      = (Ok success, tr ++ more) /\
    closing more.
Proof.
  unfold update_company_properties, try_except, bind, send, lift, ret, closing.
  repeat case_split;
    first [ eexists; eexists; split; [reflexivity | right; eauto 6]
          | exists false, []; rewrite app_nil_r; split; [reflexivity | now left] ].
Qed.

(** What follows a contact update that was not rejected, by the body of
    its answer [r]: when the body is not JSON, not an object or has no
    "id", the exception of line 322 and nothing else; otherwise one
    look-up for that very id, at most one company update, and 200. *)
Lemma resolve_and_respond_existing w u headers r tr :
  match json_body r with
  | Some (JObj kv) =>
      match dict_get kv "id" with
      | Some contact_id =>
          exists answer post resp,
            resolve_and_respond w (JObj u) headers r false tr
              = (Ok resp,
                 tr ++ Called (GetAssociations contact_id headers) answer
                         :: post) /\
            resp_status resp = 200 /\ closing post
      | None =>
          resolve_and_respond w (JObj u) headers r false tr
            = (Raise (KeyError "id"), tr)
      end
  | Some _ =>
      resolve_and_respond w (JObj u) headers r false tr = (Raise TypeError, tr)
  | None =>
      resolve_and_respond w (JObj u) headers r false tr
        = (Raise JSONDecodeError, tr)
  end.
Proof.
  unfold resolve_and_respond, bind, lift, response_json.
  destruct (json_body r) as [[| b | z | f | s | l | kv] |]; try reflexivity.
  cbn [py_getitem].
  destruct (dict_get kv "id") as [contact_id |]; [| reflexivity].
  destruct (single_immediate_check w contact_id headers tr)
    as (company_id & answer & ->).
  exists answer.
  destruct (truthy company_id).
  - cbn [py_get_default].
    destruct (update_company_properties_shape w company_id
                (dict_get_default u "Country" (JStr "")) headers
                (tr ++ [Called (GetAssociations contact_id headers) answer]))
      as (success & post & -> & Hclosing).
    exists post. eexists. unfold ret. rewrite <- app_assoc.
    split; [reflexivity |]. split; [reflexivity | exact Hclosing].
  - exists []. eexists. unfold ret.
    split; [reflexivity |]. split; [reflexivity | now left].
Qed.

(** C4. When the create call is answered with HTTP 409, the next event
    is an update-by-e-mail call for the submitted Email, with the same
    headers and the same contact record.  If that call fails in
    transport, the answer is 500 {"message": "PATCH update failed",
    "error": <error text>}; if it is answered with 400, the answer is 400
    with the raw CRM text as message; nothing else happens in either
    case.  Otherwise the contact counts as updated, not created, and the
    body of the update's answer decides.  When it is an object with an
    "id", exactly one association look-up follows, for that id and with
    the same headers, without any pause; at most one company update
    comes after it, and the answer is 200.  When it is not JSON, not an
    object, or has no "id", nothing follows and the answer is the
    catch-all 500 for JSONDecodeError, TypeError or KeyError "id". *)
Theorem conflict_triggers_update (w : World) (req : HttpRequest)
    (resp : HttpResponse) (tr rest : list event) (headers : http_headers)
    (payload : json) (r : response) :
  HubspotAdd w req [] = (Ok resp, tr) ->
  tr = Called (CreateContact headers payload) (Returned r) :: rest ->
  status_code r = 409 ->
  exists email answer rest',
    (exists data u,
       body req = BodyJson (JObj data) /\
       dict_get data "UserDetails" = Some (JObj u) /\
       dict_get u "Email" = Some email) /\
    rest = Called (UpdateContact email headers payload) answer :: rest' /\
    match answer with
    | Failed e =>
        rest' = [] /\
        resp = {| resp_status := 500;
                  resp_body := JsonDumps (JObj
                    [ ("message", JStr "PATCH update failed");
                      ("error", JStr (str_exn w e)) ]);
                  resp_mimetype := Some "application/json";
                  resp_headers := [("Access-Control-Allow-Origin", "*")] |}
    | Returned r' =>
        if status_code r' =? 400 then
          rest' = [] /\
          resp = {| resp_status := 400;
                    resp_body := JsonDumps (JObj [("message", JStr (text r'))]);
                    resp_mimetype := Some "application/json";
                    resp_headers := [("Access-Control-Allow-Origin", "*")] |}
        else
          match json_body r' with
          | Some (JObj kv) =>
              match dict_get kv "id" with
              | Some contact_id =>
                  exists answer' post,
                    rest' = Called (GetAssociations contact_id headers) answer'
                              :: post /\
                    closing post /\
                    sleeps rest' = [] /\
                    List.length (association_calls rest') = 1%nat /\
                    resp_status resp = 200
              | None =>
                  rest' = [] /\ resp = internal_server_error w (KeyError "id")
              end
          | Some _ =>
              rest' = [] /\ resp = internal_server_error w TypeError
          | None =>
              rest' = [] /\ resp = internal_server_error w JSONDecodeError
          end
    end.
Proof.
  intros Hrun -> H409.
  destruct (HubspotAdd_after_create w req headers payload r rest)
    as (data & u & Hbody & Huser & Hcheck & Hafter); [now rewrite Hrun |].
  rewrite Hrun in Hafter.
  pose proof (first_missing_none_truthy u required_fields "Email" Hcheck
                (or_introl eq_refl)) as Htruthy.
  unfold dict_get_default in Htruthy.
  destruct (dict_get u "Email") as [email |] eqn:Hemail; [| discriminate].
  revert Hafter. unfold after_create. rewrite H409.
  change (409 =? 400) with false. change (409 =? 409) with true.
  cbv iota. unfold try_except at 1, bind at 1, lift, py_getitem.
  rewrite Hemail. unfold bind at 1, try_except at 1, bind at 1, send.
  destruct (crm w [Called (CreateContact headers payload) (Returned r)]
              (UpdateContact email headers payload)) as [r' | e] eqn:Hcrm.
  - unfold ret at 1. cbv beta iota.
    destruct (status_code r' =? 400) eqn:H400.
    + unfold ret. cbn [app]. intros H; injection H as -> ->.
      exists email, (Returned r'), []. rewrite H400. eauto 10.
    + pose proof (resolve_and_respond_existing w u headers r'
                    ([Called (CreateContact headers payload) (Returned r)] ++
                     [Called (UpdateContact email headers payload)
                        (Returned r')])) as Hres.
      intros Hrun'.
      assert (Hgoal : exists rest',
                rest = Called (UpdateContact email headers payload)
                         (Returned r') :: rest' /\
                match json_body r' with
                | Some (JObj kv) =>
                    match dict_get kv "id" with
                    | Some contact_id =>
                        exists answer' post,
                          rest' = Called (GetAssociations contact_id headers)
                                    answer' :: post /\
                          closing post /\
                          sleeps rest' = [] /\
                          List.length (association_calls rest') = 1%nat /\
                          resp_status resp = 200
                    | None =>
                        rest' = [] /\
                        resp = internal_server_error w (KeyError "id")
                    end
                | Some _ =>
                    rest' = [] /\ resp = internal_server_error w TypeError
                | None =>
                    rest' = [] /\ resp = internal_server_error w JSONDecodeError
                end).
      { destruct (json_body r') as [[| b | z | f | s | l | kv] |];
          [ | | | | | | destruct (dict_get kv "id") as [contact_id |] | ];
          try (rewrite Hres in Hrun'; unfold ret in Hrun';
               cbv beta iota in Hrun'; cbn [app] in Hrun';
               injection Hrun' as -> ->; eexists;
               split; [reflexivity | split; reflexivity]).
        destruct Hres as (answer' & post & resp' & Hres & Hstatus & Hclosing).
        rewrite Hres in Hrun'. cbv beta iota in Hrun'. cbn [app] in Hrun'.
        injection Hrun' as -> ->. eexists. split; [reflexivity |].
        exists answer', post. split; [reflexivity |].
        split; [exact Hclosing |].
        destruct Hclosing as [-> | (c & h & p & a & ->)];
          repeat split; try reflexivity; exact Hstatus. }
      destruct Hgoal as (rest' & -> & Hcases).
      exists email, (Returned r'), rest'.
      split; [eauto |]. split; [reflexivity |]. rewrite H400. exact Hcases.
  - unfold ret. cbn [app]. intros H; injection H as -> ->.
    exists email, (Failed e), []. eauto 10.
Qed.

Lemma conflict_triggers_update_witness :
  exists resp payload,
    HubspotAdd (Sample.world
                  (Sample.crm_conflict
                     (Sample.json_reply 200 Sample.id42_text
                        (JObj [("id", JInt 42)])))
                  (Some "pat-123")) Sample.lead []
    = (Ok resp,
       [ Called (CreateContact Sample.headers payload)
           (Sample.text_reply 409 "Contact already exists");
         Called (UpdateContact (JStr "ada@example.org") Sample.headers payload)
           (Sample.json_reply 200 Sample.id42_text (JObj [("id", JInt 42)]));
         Called (GetAssociations (JInt 42) Sample.headers)
           (Sample.json_reply 200 "no association"
              (JObj [("results", JList [])])) ]) /\
    resp_status resp = 200.
Proof.
  eexists. eexists. split; [vm_compute; reflexivity |].
  destruct (conflict_triggers_update
              (Sample.world
                 (Sample.crm_conflict
                    (Sample.json_reply 200 Sample.id42_text
                       (JObj [("id", JInt 42)])))
                 (Some "pat-123"))
              Sample.lead _ _ _ Sample.headers _
              {| status_code := 409; text := "Contact already exists";
                 json_body := None |}
              ltac:(vm_compute; reflexivity) eq_refl eq_refl)
    as (email & answer & rest' & _ & Hrest & Hanswer).
  injection Hrest as _ <- <-.
  simpl in Hanswer.
  destruct Hanswer as (answer' & post & _ & _ & _ & _ & Hstatus).
  exact Hstatus.
Defined.

(** * Further properties of the code *)

(** ** The poller: bounds, pauses, edge cases *)

Lemma association_calls_app (a b : list event) :
  association_calls (a ++ b) = association_calls a ++ association_calls b.
Proof. apply filter_app. Qed.

Lemma sleeps_app (a b : list event) : sleeps (a ++ b) = sleeps a ++ sleeps b.
Proof. apply flat_map_app. Qed.

Lemma In_association_calls (tr : list event) contact_id headers answer :
  In (Called (GetAssociations contact_id headers) answer) tr ->
  association_calls tr <> [].
Proof.
  intros Hin Hnil.
  assert (H : In (Called (GetAssociations contact_id headers) answer)
                (association_calls tr)).
  { unfold association_calls. apply filter_In. split; [exact Hin | reflexivity]. }
  rewrite Hnil in H. destruct H.
Qed.

Lemma backoff_delays_prefix (n : nat) :
  forall d, incl (backoff_delays n d) (backoff_delays (S n) d).
Proof.
  induction n as [| n IH]; intros d x Hx; [destruct Hx |].
  cbn [backoff_delays] in *. destruct Hx as [<- | Hx]; [now left |].
  right. now apply (IH (Qred (d * (3 # 2)))).
Qed.

(** One pass through the loop body, with a delay that is not negative:
    one look-up, then the function returns, or the loop goes on, after a
    pause of [delay] unless this was the last attempt. *)
Lemma poll_attempt_cases w contact_id headers max_retries attempt delay tr :
  ((attempt <? max_retries - 1) = true -> sleepable delay = true) ->
  exists answer step more,
    try_except (poll_try w contact_id headers max_retries attempt delay)
      (fun _ => poll_except max_retries attempt delay) tr
    = (Ok step, tr ++ Called (GetAssociations contact_id headers) answer :: more) /\
    ((exists v, step = Return v /\ more = []) \/
     ((attempt <? max_retries - 1) = false /\
      step = Continue delay /\ more = []) \/
     ((attempt <? max_retries - 1) = true /\ more = [Slept delay] /\
      (step = Continue delay \/ step = Continue (Qred (delay * (3 # 2)))))).
Proof.
  intros Hs. unfold poll_try, poll_except.
  destruct (attempt <? max_retries - 1);
    [rewrite (sleep_ok delay (Hs eq_refl)) |];
    unfold try_except, bind, send, lift, ret;
    repeat case_split;
    eexists; eexists; eexists;
    (split; [rewrite <- ?app_assoc; reflexivity |]);
    first [ left; eexists; split; reflexivity
          | right; left; repeat split; reflexivity
          | right; right; repeat split;
            first [ reflexivity | left; reflexivity | right; reflexivity ] ].
Qed.

(** The loop over the attempts [i, i+1, ..., i+k-1] of [i+k]. *)
Lemma poll_loop_invariant w contact_id headers (k : nat) :
  forall (i : nat) (delay : Q) (tr : list event),
    (forall d, In d (backoff_delays (k - 1) delay) -> sleepable d = true) ->
    exists company_id more,
      poll_loop w contact_id headers (Z.of_nat (i + k))
        (map Z.of_nat (seq i k)) delay tr
      = (Ok company_id, tr ++ more) /\
      Forall (poll_event contact_id headers) more /\
      (List.length (association_calls more) <= k)%nat /\
      (1 <= k -> 1 <= List.length (association_calls more))%nat /\
      (List.length (sleeps more) <= k - 1)%nat /\
      incl (sleeps more) (backoff_delays (k - 1) delay).
Proof.
  induction k as [| k IH]; intros i delay tr Hs.
  - exists JNull, []. cbn. rewrite app_nil_r.
    repeat split; auto; try lia; try (intros x []); repeat constructor.
  - cbn [seq map poll_loop]. unfold bind at 1.
    replace (S k - 1)%nat with k in Hs by lia.
    assert (Hfirst : (Z.of_nat i <? Z.of_nat (i + S k) - 1) = true ->
                     sleepable delay = true).
    { rewrite poll_step_index. destruct k; [discriminate |].
      intros _. apply Hs. now left. }
    destruct (poll_attempt_cases w contact_id headers (Z.of_nat (i + S k))
                (Z.of_nat i) delay tr Hfirst)
      as (answer & step & more1 & -> & Hcases).
    rewrite poll_step_index in Hcases.
    destruct Hcases as [(v & -> & ->) | [(Hlast & -> & ->) | (Hnot & -> & Hstep)]].
    + exists v. eexists. split; [reflexivity |].
      cbn. repeat split; auto; try lia; try (intros x []); repeat constructor.
    + destruct k; [| discriminate]. cbn [seq map poll_loop].
      exists JNull. eexists. split; [reflexivity |].
      cbn. repeat split; auto; try lia; try (intros x []); repeat constructor.
    + destruct k as [| k']; [discriminate |].
      assert (Hd : exists d', step = Continue d' /\
                    incl (backoff_delays k' d')
                         (backoff_delays k' (Qred (delay * (3 # 2)))
                          ++ backoff_delays (S k') delay)).
      { destruct Hstep as [-> | ->]; eexists; (split; [reflexivity |]).
        - intros x Hx. apply in_or_app. right.
          now apply backoff_delays_prefix.
        - intros x Hx. apply in_or_app. now left. }
      destruct Hd as (d' & -> & Hincl).
      assert (Hd' : forall d, In d (backoff_delays (S k' - 1) d') ->
                              sleepable d = true).
      { replace (S k' - 1)%nat with k' by lia. intros d Hd.
        apply Hs. apply Hincl, in_app_or in Hd.
        destruct Hd as [Hd | Hd]; [now right | exact Hd]. }
      replace (i + S (S k'))%nat with (S i + S k')%nat by lia.
      destruct (IH (S i) d'
                  (tr ++ [Called (GetAssociations contact_id headers) answer;
                          Slept delay]) Hd')
        as (company_id & more2 & -> & Hall & Hcalls & Hsome & Hlen & Hsl).
      exists company_id. eexists.
      split; [rewrite <- app_assoc; reflexivity |].
      cbn [app]. split; [| split; [| split; [| split]]].
      * constructor; [split; reflexivity |]. constructor; [exact I | exact Hall].
      * unfold association_calls in *. cbn. lia.
      * unfold association_calls in *. cbn. lia.
      * unfold sleeps in *. cbn. lia.
      * cbn [sleeps flat_map app]. change (flat_map _ more2) with (sleeps more2).
        replace (S (S k') - 1)%nat with (S k') by lia.
        replace (S k' - 1)%nat with k' in Hsl by lia.
        intros x [<- | Hx]; [now left |].
        apply Hsl, Hincl, in_app_or in Hx.
        destruct Hx as [Hx | Hx]; [now right | exact Hx].
Qed.

Lemma wait_for_company_association_invariant w contact_id headers
    (max_retries : Z) (delay : Q) (tr : list event) :
  (forall d, In d (backoff_delays (Z.to_nat max_retries - 1) delay) ->
             sleepable d = true) ->
  exists company_id more,
    wait_for_company_association w contact_id headers max_retries delay tr
    = (Ok company_id, tr ++ more) /\
    Forall (poll_event contact_id headers) more /\
    (List.length (association_calls more) <= Z.to_nat max_retries)%nat /\
    (1 <= max_retries -> (1 <= List.length (association_calls more))%nat) /\
    (List.length (sleeps more) <= Z.to_nat max_retries - 1)%nat /\
    incl (sleeps more) (backoff_delays (Z.to_nat max_retries - 1) delay).
Proof.
  intros Hdelay. unfold wait_for_company_association, range.
  destruct (Z.le_gt_cases max_retries 0) as [Hle | Hgt].
  - replace (Z.to_nat max_retries) with 0%nat by lia.
    exists JNull, []. cbn. rewrite app_nil_r.
    repeat split; auto; try lia; try (intros x []); repeat constructor.
  - destruct (poll_loop_invariant w contact_id headers (Z.to_nat max_retries)
                0 delay tr Hdelay)
      as (company_id & more & Hrun & Hall & Hcalls & Hsome & Hlen & Hsl).
    rewrite Nat.add_0_l, Z2Nat.id in Hrun by lia.
    exists company_id, more. repeat split; auto. intros _. apply Hsome. lia.
Qed.

(** As long as every pause of the backoff is one [time.sleep] accepts,
    the poller never raises: whatever the association endpoint does is
    caught. *)
Lemma poller_never_raises (w : World) (contact_id : json)
    (headers : http_headers) (max_retries : Z) (delay : Q) (tr : list event) :
  (forall d, In d (backoff_delays (Z.to_nat max_retries - 1) delay) ->
             sleepable d = true) ->
  exists company_id tr',
    wait_for_company_association w contact_id headers max_retries delay tr
    = (Ok company_id, tr').
Proof.
  intros Hs.
  destruct (wait_for_company_association_invariant w contact_id headers
              max_retries delay tr Hs)
    as (company_id & more & Hrun & _).
  eauto.
Qed.

Lemma sleepable_in_range (d : Q) :
  (0 <= d)%Q -> (d <= 9000000000 # 1)%Q -> sleepable d = true.
Proof.
  intros H0 Hmax. unfold sleepable. apply andb_true_iff.
  split; apply Qle_bool_iff; [exact H0 |].
  apply Qle_trans with (9000000000 # 1); [exact Hmax | discriminate].
Qed.

(** X3. Under persistent transport errors the delay never grows: for a
    delay between 0 and 9 000 000 000 seconds (lengths [time.sleep]
    accepts) and any [max_retries], when every association look-up
    raises, the poller makes exactly [max_retries] look-ups, pauses
    [max_retries - 1] times for the initial delay each time, and returns
    None. *)
Theorem poller_constant_delay_on_errors (w : World) (contact_id : json)
    (headers : http_headers) (max_retries : Z) (delay : Q) (tr : list event) :
  (forall history, exists e,
     crm w history (GetAssociations contact_id headers) = Failed e) ->
  (0 <= delay)%Q ->
  (delay <= 9000000000 # 1)%Q ->
  exists more,
    wait_for_company_association w contact_id headers max_retries delay tr
    = (Ok JNull, tr ++ more) /\
    List.length (association_calls more) = Z.to_nat max_retries /\
    sleeps more = repeat delay (Z.to_nat max_retries - 1).
Proof.
  intros Hfail Hmin Hmax.
  pose proof (sleepable_in_range delay Hmin Hmax) as Hdelay.
  assert (Hloop : forall (n i : nat) (tr : list event),
            exists more,
              poll_loop w contact_id headers (Z.of_nat (i + n))
                (map Z.of_nat (seq i n)) delay tr
              = (Ok JNull, tr ++ more) /\
              List.length (association_calls more) = n /\
              sleeps more = repeat delay (n - 1)).
  { induction n as [| k IH]; intros i tr0.
    { exists []. cbn. now rewrite app_nil_r. }
    cbn [seq map poll_loop].
    unfold poll_try, poll_except, try_except, bind at 1 2 3, send.
    rewrite poll_step_index.
    destruct (Hfail tr0) as [e ->].
    replace (i + S k)%nat with (S i + k)%nat by lia.
    destruct k as [| k'].
    - exists [Called (GetAssociations contact_id headers) (Failed e)].
      repeat split.
    - rewrite (sleep_ok delay Hdelay). unfold bind, ret.
      destruct (IH (S i)
                  ((tr0 ++ [Called (GetAssociations contact_id headers) (Failed e)])
                     ++ [Slept delay]))
        as (more & -> & Hcalls & Hsleeps).
      exists (Called (GetAssociations contact_id headers) (Failed e)
              :: Slept delay :: more).
      split; [now rewrite <- !app_assoc |].
      unfold association_calls, sleeps in *. cbn.
      replace (S k' - 1)%nat with k' in Hsleeps by lia.
      rewrite Hcalls, Hsleeps. split; reflexivity. }
  unfold wait_for_company_association, range.
  destruct (Z.le_gt_cases max_retries 0) as [Hle | Hgt].
  - replace (Z.to_nat max_retries) with 0%nat by lia.
    exists []. cbn. now rewrite app_nil_r.
  - specialize (Hloop (Z.to_nat max_retries) 0%nat tr).
    rewrite Nat.add_0_l, Z2Nat.id in Hloop by lia. exact Hloop.
Qed.

Lemma poller_constant_delay_on_errors_witness :
  exists more,
    wait_for_company_association
      (Sample.world Sample.crm_associations_time_out None)
      (JInt 42) Sample.headers 5 (2 # 1) []
    = (Ok JNull, [] ++ more) /\
    sleeps more = [2 # 1; 2 # 1; 2 # 1; 2 # 1].
Proof.
  destruct (poller_constant_delay_on_errors
              (Sample.world Sample.crm_associations_time_out None)
              (JInt 42) Sample.headers 5 (2 # 1) []
              (fun _ => ex_intro _ (RequestException "Read timed out.") eq_refl)
              ltac:(discriminate) ltac:(discriminate))
    as (more & Hrun & _ & Hsleeps).
  exists more. split; [exact Hrun | exact Hsleeps].
Defined.

(** X4. A negative delay breaks the poller: for a delay between
    -9 000 000 000 seconds and 0, when at least two attempts are allowed
    and the first look-up raises, [time.sleep] refuses the negative
    length inside the [except] clause, and the [ValueError] leaves the
    function after that single look-up. *)
Theorem poller_negative_delay_raises (w : World) (contact_id : json)
    (headers : http_headers) (max_retries : Z) (delay : Q) (tr : list event)
    (e : exn) :
  (- (9000000000 # 1) <= delay)%Q ->
  (delay < 0)%Q ->
  2 <= max_retries ->
  crm w tr (GetAssociations contact_id headers) = Failed e ->
  wait_for_company_association w contact_id headers max_retries delay tr
  = (Raise ValueError,
     tr ++ [Called (GetAssociations contact_id headers) (Failed e)]).
Proof.
  intros Hlow Hneg Hmax Hfail.
  assert (Hrange : Qle_bool (- sleep_max) delay && Qle_bool delay sleep_max
                   = true).
  { apply andb_true_iff. split; apply Qle_bool_iff.
    - apply Qle_trans with (- (9000000000 # 1))%Q; [discriminate | exact Hlow].
    - apply Qle_trans with 0%Q; [now apply Qlt_le_weak | discriminate]. }
  assert (Hdelay : Qle_bool 0 delay = false).
  { destruct (Qle_bool 0 delay) eqn:E; [| reflexivity].
    apply Qle_bool_iff in E. now elim (Qlt_not_le _ _ Hneg). }
  unfold wait_for_company_association, range.
  destruct (Z.to_nat max_retries) as [| n] eqn:Hn; [lia |].
  cbn [seq map poll_loop].
  unfold poll_try, poll_except, try_except, bind, send, sleep.
  rewrite Hfail.
  replace (Z.of_nat 0 <? max_retries - 1) with true
    by (symmetry; apply Z.ltb_lt; lia).
  now rewrite Hrange, Hdelay.
Qed.

Lemma poller_negative_delay_raises_witness :
  wait_for_company_association
    (Sample.world Sample.crm_associations_time_out None)
    (JInt 42) Sample.headers 5 (-1 # 1) []
  = (Raise ValueError,
     [Called (GetAssociations (JInt 42) Sample.headers) Sample.timed_out]).
Proof.
  apply (poller_negative_delay_raises
           (Sample.world Sample.crm_associations_time_out None)
           (JInt 42) Sample.headers 5 (-1 # 1) []
           (RequestException "Read timed out.")).
  - discriminate.
  - reflexivity.
  - lia.
  - reflexivity.
Defined.


(** ** The company update *)

(** X5. [update_company_properties] never raises and makes at most one
    call, the PATCH of the company it was given.  It returns True exactly
    when that PATCH was answered with HTTP 200, and it makes no call at
    all exactly when the country is truthy and its look-up raises. *)
Theorem update_company_properties_outcome (w : World)
    (company_id user_country : json) (headers : http_headers)
    (tr : list event) :
  exists success more,
    update_company_properties w company_id user_country headers tr
      = (Ok success, tr ++ more) /\
    (more = [] \/
     exists payload answer,
       more = [Called (UpdateCompany company_id headers payload) answer]) /\
    (success = true <->
     exists payload r,
       more = [Called (UpdateCompany company_id headers payload) (Returned r)] /\
       status_code r = 200) /\
    (more = [] <->
     truthy user_country = true /\
     exists e, countries_get w user_country = Raise e).
Proof.
  unfold update_company_properties, try_except, bind at 1.
  assert (Hsent : forall payload,
            exists success more,
              (let (p, tr') :=
                 bind (send w (UpdateCompany company_id headers payload))
                   (fun company_update_response =>
                      if status_code company_update_response =? 200
                      then ret true else ret false) tr in
               match p with
               | Ok a => (Ok a, tr')
               | Raise _ => ret false tr'
               end) = (Ok success, tr ++ more) /\
              (exists answer,
                 more = [Called (UpdateCompany company_id headers payload) answer]) /\
              (success = true <->
               exists payload' r,
                 more = [Called (UpdateCompany company_id headers payload')
                           (Returned r)] /\
                 status_code r = 200)).
  { intros payload. unfold bind, send, ret.
    destruct (crm w tr (UpdateCompany company_id headers payload)) as [r | e].
    - destruct (status_code r =? 200) eqn:Hs; eexists; eexists;
        (split; [reflexivity |]); (split; [eexists; reflexivity |]).
      + split; [| reflexivity]. intros _. apply Z.eqb_eq in Hs. eauto.
      + split; [discriminate |]. intros (p' & r' & [= _ <-] & H200).
        apply Z.eqb_neq in Hs. contradiction.
    - eexists; eexists; (split; [reflexivity |]); (split; [eexists; reflexivity |]).
      split; [discriminate |]. intros (p' & r' & [=] & _). }
  destruct (truthy user_country) eqn:Htruthy.
  - unfold lift. destruct (countries_get w user_country) as [country | e] eqn:Hc.
    + match goal with
      | |- context [UpdateCompany company_id headers ?payload] =>
          destruct (Hsent payload) as (success & more & -> & [answer ->] & Hiff)
      end.
      exists success. eexists. split; [reflexivity |].
      split; [right; eauto |]. split; [exact Hiff |].
      split; [discriminate |]. intros [_ [e' [=]]].
    + exists false, []. unfold ret. rewrite app_nil_r.
      split; [reflexivity |]. split; [now left |].
      split; [split; [discriminate | intros (p' & r' & [=] & _)] |].
      split; [eauto | reflexivity].
  - unfold ret at 1.
    match goal with
    | |- context [UpdateCompany company_id headers ?payload] =>
        destruct (Hsent payload) as (success & more & -> & [answer ->] & Hiff)
    end.
    exists success. eexists. split; [reflexivity |].
    split; [right; eauto |]. split; [exact Hiff |].
    split; [discriminate |]. intros [[=] _].
Qed.

(** ** The call protocol of the handler *)

Lemma polling_nil : polling [].
Proof.
  split; [exists JNull, []; constructor |].
  cbn. repeat split; try lia; try congruence. intros x [].
Qed.

(** From the answer [r] on: either the contact id cannot be read and
    nothing happens, or polling takes place, possibly followed by one
    company update, and the answer is 200. *)
Lemma resolve_and_respond_shape w u headers r contact_created tr :
  (exists e,
     resolve_and_respond w (JObj u) headers r contact_created tr
       = (Raise e, tr)) \/
  (exists polls post resp,
     resolve_and_respond w (JObj u) headers r contact_created tr
       = (Ok resp, tr ++ polls ++ post) /\
     resp_status resp = 200 /\
     polling polls /\ polls <> [] /\ closing post).
Proof.
  unfold resolve_and_respond, bind, lift.
  destruct (response_json r) as [body_json | e]; [| left; eauto].
  destruct (py_getitem body_json "id") as [contact_id | e]; [| left; eauto].
  right.
  assert (Hpoll : exists company_id polls,
            (if contact_created
             then wait_for_company_association w contact_id headers 5 (2 # 1)
             else wait_for_company_association w contact_id headers 1 (0 # 1)) tr
            = (Ok company_id, tr ++ polls) /\
            polling polls /\ polls <> []).
  { destruct contact_created.
    - destruct (wait_for_company_association_invariant w contact_id headers
                  5 (2 # 1) tr handler_pauses_sleepable)
        as (company_id & polls & Hrun & Hall & Hcalls & Hsome & Hlen & Hsl).
      exists company_id, polls. split; [exact Hrun |]. split.
      + split; [eauto |]. repeat split; try assumption.
        intros _. apply Hsome. lia.
      + intros ->. specialize (Hsome ltac:(lia)). cbn in Hsome. lia.
    - destruct (wait_for_company_association_invariant w contact_id headers
                  1 (0 # 1) tr (fun d (H : In d []) => match H with end))
        as (company_id & polls & Hrun & Hall & Hcalls & Hsome & Hlen & Hsl).
      exists company_id, polls. split; [exact Hrun |]. split.
      + split; [eauto |]. cbn in Hcalls, Hlen, Hsl.
        repeat split; try lia.
        intros x Hx. destruct (Hsl x Hx).
      + intros ->. specialize (Hsome ltac:(lia)). cbn in Hsome. lia. }
  destruct Hpoll as (company_id & polls & -> & Hpolling & Hsome).
  exists polls. destruct (truthy company_id).
  - cbn [py_get_default].
    destruct (update_company_properties_shape w company_id
                (dict_get_default u "Country" (JStr "")) headers (tr ++ polls))
      as (success & post & -> & Hclosing).
    exists post. eexists. unfold ret. rewrite <- app_assoc.
    split; [reflexivity |]. split; [reflexivity |]. auto.
  - exists []. eexists. unfold ret. rewrite app_nil_r.
    split; [reflexivity |]. split; [reflexivity |].
    split; [exact Hpolling |]. split; [exact Hsome | now left].
Qed.

(** From the answer [r] to the create call on: what is added to the
    trace is an optional update by e-mail (only after a 409), then
    polling and closing; the answer is 200 exactly when polling took
    place. *)
Lemma after_create_shape w u payload headers r tr :
  exists res update polls post,
    after_create w (JObj u) payload headers r tr
      = (res, tr ++ update ++ polls ++ post) /\
    (update = [] \/
     exists email answer,
       status_code r = 409 /\
       update = [Called (UpdateContact email headers payload) answer]) /\
    polling polls /\ closing post /\
    (polls = [] -> post = [] /\ forall resp, res = Ok resp -> resp_status resp <> 200) /\
    (polls <> [] -> exists resp, res = Ok resp /\ resp_status resp = 200).
Proof.
  assert (Hresolve : forall contact_created r0 tr0,
            exists res polls post,
              resolve_and_respond w (JObj u) headers r0 contact_created tr0
                = (res, tr0 ++ polls ++ post) /\
              polling polls /\ closing post /\
              (polls = [] -> post = [] /\
                 forall resp, res = Ok resp -> resp_status resp <> 200) /\
              (polls <> [] -> exists resp, res = Ok resp /\ resp_status resp = 200)).
  { intros contact_created r0 tr0.
    destruct (resolve_and_respond_shape w u headers r0 contact_created tr0)
      as [[e ->] | (polls & post & resp & -> & Hstatus & Hpolling & Hsome & Hclosing)].
    - exists (Raise e), [], []. rewrite app_nil_r.
      split; [reflexivity |]. split; [apply polling_nil |].
      split; [now left |]. split; [| congruence].
      intros _. split; [reflexivity | discriminate].
    - exists (Ok resp), polls, post.
      split; [reflexivity |]. split; [exact Hpolling |].
      split; [exact Hclosing |]. split; [intros ->; contradiction | eauto]. }
  assert (Hstop : forall (resp : HttpResponse) update tr',
            tr' = tr ++ update ->
            resp_status resp <> 200 ->
            (update = [] \/
             exists email answer,
               status_code r = 409 /\
               update = [Called (UpdateContact email headers payload) answer]) ->
            exists res update' polls post,
              (Ok resp, tr') = (res, tr ++ update' ++ polls ++ post) /\
              (update' = [] \/
               exists email answer,
                 status_code r = 409 /\
                 update' = [Called (UpdateContact email headers payload) answer]) /\
              polling polls /\ closing post /\
              (polls = [] -> post = [] /\
                 forall resp', res = Ok resp' -> resp_status resp' <> 200) /\
              (polls <> [] -> exists resp', res = Ok resp' /\ resp_status resp' = 200)).
  { intros resp update tr' -> Hstatus Hupdate.
    exists (Ok resp), update, [], []. rewrite !app_nil_r.
    split; [reflexivity |]. split; [exact Hupdate |].
    split; [apply polling_nil |]. split; [now left |].
    split; [| congruence]. intros _. split; [reflexivity |].
    now intros resp' [= <-]. }
  unfold after_create.
  destruct (status_code r =? 400).
  { unfold ret.
    apply (Hstop _ []); [now rewrite app_nil_r | discriminate | now left]. }
  destruct (status_code r =? 409) eqn:H409.
  2:{ destruct (Hresolve true r tr) as (res & polls & post & -> & H).
      exists res, [], polls, post. split; [reflexivity |].
      split; [now left | exact H]. }
  apply Z.eqb_eq in H409.
  unfold bind at 1, lift.
  destruct (py_getitem (JObj u) "Email") as [email | e].
  2:{ exists (Raise e), [], [], []. rewrite app_nil_r.
      split; [reflexivity |]. split; [now left |].
      split; [apply polling_nil |]. split; [now left |].
      split; [| congruence]. intros _. split; [reflexivity | discriminate]. }
  unfold bind at 1, try_except, bind at 1, send.
  destruct (crm w tr (UpdateContact email headers payload)) as [r' | e].
  - unfold ret at 1. cbv beta iota.
    destruct (status_code r' =? 400).
    + unfold ret. eapply Hstop; [reflexivity | discriminate | right; eauto].
    + destruct (Hresolve false r'
                  (tr ++ [Called (UpdateContact email headers payload) (Returned r')]))
        as (res & polls & post & -> & H).
      exists res. eexists. exists polls, post.
      split; [rewrite <- app_assoc; reflexivity |].
      split; [right; eauto | exact H].
  - unfold ret. eapply Hstop; [reflexivity | discriminate | right; eauto].
Qed.

(** The same, keeping track of the contact id: when anything happens at
    all, the id is the "id" of the object in the body of [r], and
    every look-up is for that id, with the handler's headers. *)
Lemma resolve_and_respond_id w u headers r contact_created tr :
  (exists e,
     resolve_and_respond w (JObj u) headers r contact_created tr
       = (Raise e, tr)) \/
  (exists kv contact_id polls post resp,
     json_body r = Some (JObj kv) /\
     dict_get kv "id" = Some contact_id /\
     resolve_and_respond w (JObj u) headers r contact_created tr
       = (Ok resp, tr ++ polls ++ post) /\
     Forall (poll_event contact_id headers) polls /\ closing post).
Proof.
  unfold resolve_and_respond, bind, lift, response_json.
  destruct (json_body r) as [[| b | z | f | s | l | kv] |];
    try (left; eexists; reflexivity).
  cbn [py_getitem].
  destruct (dict_get kv "id") as [contact_id |] eqn:Hid;
    [| left; eexists; reflexivity].
  right. exists kv, contact_id.
  assert (Hpoll : exists company_id polls,
            (if contact_created
             then wait_for_company_association w contact_id headers 5 (2 # 1)
             else wait_for_company_association w contact_id headers 1 (0 # 1)) tr
            = (Ok company_id, tr ++ polls) /\
            Forall (poll_event contact_id headers) polls).
  { destruct contact_created.
    - destruct (wait_for_company_association_invariant w contact_id headers
                  5 (2 # 1) tr handler_pauses_sleepable)
        as (company_id & polls & Hrun & Hall & _).
      eauto.
    - destruct (wait_for_company_association_invariant w contact_id headers
                  1 (0 # 1) tr (fun d (H : In d []) => match H with end))
        as (company_id & polls & Hrun & Hall & _).
      eauto. }
  destruct Hpoll as (company_id & polls & -> & Hall).
  exists polls. destruct (truthy company_id).
  - cbn [py_get_default].
    destruct (update_company_properties_shape w company_id
                (dict_get_default u "Country" (JStr "")) headers (tr ++ polls))
      as (success & post & -> & Hclosing).
    exists post. eexists. unfold ret. rewrite <- app_assoc.
    split; [reflexivity |]. split; [exact Hid |].
    split; [reflexivity |]. split; assumption.
  - exists []. eexists. unfold ret. rewrite app_nil_r.
    split; [reflexivity |]. split; [exact Hid |].
    split; [reflexivity |]. split; [exact Hall | now left].
Qed.

(** From the answer [r] to the create call on: either no association
    look-up is made, or the events added are an optional update by
    e-mail (after a 409), look-ups and pauses for the id read from the
    body of the last contact call's answer, and a closing. *)
Lemma after_create_lookups w u payload headers r tr :
  exists res more,
    after_create w (JObj u) payload headers r tr = (res, tr ++ more) /\
    (association_calls more = [] \/
     exists update r0 kv contact_id polls post,
       more = update ++ polls ++ post /\
       ((update = [] /\ r0 = r) \/
        (exists email,
           status_code r = 409 /\
           update = [Called (UpdateContact email headers payload)
                       (Returned r0)])) /\
       json_body r0 = Some (JObj kv) /\
       dict_get kv "id" = Some contact_id /\
       Forall (poll_event contact_id headers) polls /\ closing post).
Proof.
  unfold after_create.
  destruct (status_code r =? 400).
  { unfold ret. eexists. exists []. rewrite app_nil_r.
    split; [reflexivity | now left]. }
  destruct (status_code r =? 409) eqn:H409.
  2:{ destruct (resolve_and_respond_id w u headers r true tr)
        as [[e ->] | (kv & contact_id & polls & post & resp & Hjson & Hid & ->
                      & Hall & Hclosing)].
      - exists (Raise e), []. rewrite app_nil_r.
        split; [reflexivity | now left].
      - exists (Ok resp), (polls ++ post). split; [reflexivity |].
        right. exists [], r, kv, contact_id, polls, post.
        split; [reflexivity |]. split; [left; split; reflexivity |].
        split; [exact Hjson |]. split; [exact Hid |].
        split; assumption. }
  apply Z.eqb_eq in H409.
  unfold bind at 1, lift.
  destruct (py_getitem (JObj u) "Email") as [email | e].
  2:{ exists (Raise e), []. rewrite app_nil_r.
      split; [reflexivity | now left]. }
  unfold bind at 1, try_except, bind at 1, send.
  destruct (crm w tr (UpdateContact email headers payload)) as [r' | e].
  - unfold ret at 1. cbv beta iota.
    destruct (status_code r' =? 400).
    + unfold ret. eexists. eexists. split; [reflexivity | left; reflexivity].
    + destruct (resolve_and_respond_id w u headers r' false
                  (tr ++ [Called (UpdateContact email headers payload)
                            (Returned r')]))
        as [[e ->] | (kv & contact_id & polls & post & resp & Hjson & Hid & ->
                      & Hall & Hclosing)].
      * exists (Raise e). eexists. split; [reflexivity | left; reflexivity].
      * exists (Ok resp). eexists.
        split; [rewrite <- app_assoc; reflexivity |].
        right. eexists. exists r', kv, contact_id, polls, post.
        split; [reflexivity |]. split; [right; eauto |].
        split; [exact Hjson |]. split; [exact Hid |].
        split; assumption.
  - unfold ret. eexists. eexists. split; [reflexivity | left; reflexivity].
Qed.

Ltac run_stops :=
  left; split;
  [ reflexivity
  | let H := fresh "H" in
    intros ? H ?; cbn in H; try discriminate H;
    injection H as <-; cbn; discriminate ].

(** Either the handler stops before any outbound call, and then never
    with a 200 (the preflight apart), or the request is a validated POST
    and the run is that of [create_or_update] on the record built from
    it, under the bearer token. *)
Lemma HubspotAdd_try_stops_or_creates (w : World) (req : HttpRequest) :
  (snd (HubspotAdd_try w req []) = [] /\
   forall resp, fst (HubspotAdd_try w req []) = Ok resp ->
                method req <> "OPTIONS" -> resp_status resp <> 200) \/
  exists data u hubspot_data token,
    method req = "POST" /\
    body req = BodyJson (JObj data) /\
    dict_get data "UserDetails" = Some (JObj u) /\
    first_missing (JObj u) required_fields = Ok None /\
    build_hubspot_data w (JObj data) (JObj u) [] = (Ok hubspot_data, []) /\
    HUBSPOT_TOKEN w = Some token /\ token <> "" /\
    HubspotAdd_try w req []
      = create_or_update w (JObj u) hubspot_data
          [ ("Authorization", ("Bearer " ++ token)%string);
            ("Content-Type", "application/json") ] [].
Proof.
  destruct (String.eqb_spec (method req) "POST") as [Hpost | Hnot].
  2:{ left. unfold HubspotAdd_try.
      destruct (String.eqb_spec (method req) "OPTIONS") as [Hopt | Hopt].
      - split; [reflexivity | intros resp _ H; contradiction].
      - apply String.eqb_neq in Hnot. rewrite Hnot.
        split; [reflexivity |]. intros resp [= <-] _. discriminate. }
  destruct (body req) as [data | | e] eqn:Hbody.
  2,3: unfold HubspotAdd_try; rewrite Hpost, Hbody; run_stops.
  assert (Hobj : (exists d user, data = JObj d /\
                    dict_get d "UserDetails" = Some user) \/
                 (snd (HubspotAdd_try w req []) = [] /\
                  forall resp, fst (HubspotAdd_try w req []) = Ok resp ->
                    method req <> "OPTIONS" -> resp_status resp <> 200)).
  { unfold HubspotAdd_try, bind, lift, ret. rewrite Hpost, Hbody.
    assert (Hopen : forall A B : Prop, B -> A \/ B) by tauto.
    destruct data as [| | | | s | l | d].
    1-4: apply Hopen; split;
           [reflexivity | intros resp H; cbn in H; discriminate].
    - apply Hopen. cbn. destruct (str_contains "UserDetails" s); cbn;
        (split; [reflexivity |]); intros resp H _;
        try discriminate; injection H as <-; discriminate.
    - apply Hopen. cbn. destruct (existsb _ l); cbn;
        (split; [reflexivity |]); intros resp H _;
        try discriminate; injection H as <-; discriminate.
    - destruct (dict_get d "UserDetails") as [user |] eqn:Hget.
      + left. now exists d, user.
      + apply Hopen. cbn. rewrite Hget. cbn.
        split; [reflexivity |]. intros resp [= <-] _. discriminate. }
  destruct Hobj as [(d & user & -> & Huser) | Hnone]; [| now left].
  rewrite (HubspotAdd_try_user w req d user [] Hpost Hbody Huser).
  destruct (first_missing user required_fields) as [[field |] | e] eqn:Hcheck;
    try run_stops.
  destruct (first_missing_dict _ _ _ _ Hcheck) as [u ->].
  unfold build_and_send, bind.
  pose proof (build_hubspot_data_silent w (JObj d) (JObj u) []) as Hsilent.
  destruct (build_hubspot_data w (JObj d) (JObj u) [])
    as [[hubspot_data | e] tr'] eqn:Hbuild;
    cbn in Hsilent; subst tr'; [| run_stops].
  destruct (HUBSPOT_TOKEN w) as [[| c token'] |] eqn:Htoken; try run_stops.
  right. exists d, u, hubspot_data, (String c token').
  repeat split; try assumption; try reflexivity. discriminate.
Qed.

(** Every run of the handler follows one protocol: an opening (nothing,
    the create call, or create answered 409 then update), a polling
    phase, and a closing (nothing or one company update); a run without
    polling has no closing and, the preflight apart, is not answered 200;
    a run with polling is answered 200. *)
Lemma HubspotAdd_protocol (w : World) (req : HttpRequest) :
  exists resp pre polls post,
    HubspotAdd w req [] = (Ok resp, pre ++ polls ++ post) /\
    opening pre /\ polling polls /\ closing post /\
    (polls = [] ->
     post = [] /\ (method req <> "OPTIONS" -> resp_status resp <> 200)) /\
    (polls <> [] -> resp_status resp = 200 /\ method req = "POST").
Proof.
  unfold HubspotAdd, try_except.
  destruct (HubspotAdd_try_stops_or_creates w req)
    as [[Hnone Hstatus]
       | (data & u & hd & token & Hpost & _ & _ & _ & _ & _ & _ & Hrun)].
  - destruct (HubspotAdd_try w req []) as [[resp | e] tr'];
      cbn in Hnone; subst tr'; eexists; exists [], [], [];
      (split; [reflexivity |]); (split; [now left |]);
      (split; [apply polling_nil |]); (split; [now left |]);
      (split; [| congruence]); intros _; (split; [reflexivity |]).
    + intros Hm. now apply Hstatus.
    + intros _. discriminate.
  - rewrite Hrun. unfold create_or_update, bind at 1, send.
    set (headers := [("Authorization", ("Bearer " ++ token)%string);
                     ("Content-Type", "application/json")]).
    destruct (crm w [] (CreateContact headers hd)) as [r | e]; cbn [app].
    + destruct (after_create_shape w u hd headers r
                  [Called (CreateContact headers hd) (Returned r)])
        as (res & update & polls & post & -> & Hupdate & Hpolling & Hclosing
            & Hnone & Hsome).
      assert (Hopening :
                opening ([Called (CreateContact headers hd) (Returned r)]
                           ++ update)).
      { destruct Hupdate as [-> | (email & answer & H409 & ->)].
        - right. left. cbn. eauto.
        - right. right. cbn. eauto 8. }
      destruct res as [resp | e].
      * exists resp. eexists. exists polls, post.
        split; [rewrite <- app_assoc; reflexivity |].
        split; [exact Hopening |]. split; [exact Hpolling |].
        split; [exact Hclosing |]. split.
        -- intros Hnil. destruct (Hnone Hnil) as [-> Hst].
           split; [reflexivity |]. intros _. now apply Hst.
        -- intros Hne. destruct (Hsome Hne) as (resp' & [= <-] & H200).
           now split.
      * eexists. eexists. exists polls, post. unfold ret.
        split; [rewrite <- app_assoc; reflexivity |].
        split; [exact Hopening |]. split; [exact Hpolling |].
        split; [exact Hclosing |]. split.
        -- intros Hnil. destruct (Hnone Hnil) as [-> _].
           split; [reflexivity |]. intros _. discriminate.
        -- intros Hne. destruct (Hsome Hne) as (resp' & [=] & _).
    + eexists. exists [Called (CreateContact headers hd) (Failed e)], [], [].
      unfold ret. split; [reflexivity |].
      split; [right; left; eauto |]. split; [apply polling_nil |].
      split; [now left |]. split; [| congruence].
      intros _. split; [reflexivity |]. intros _. discriminate.
Qed.

Lemma opening_quiet pre :
  opening pre -> association_calls pre = [] /\ sleeps pre = [].
Proof.
  intros [-> | [(h & p & o & ->) | (h & p & r & email & o & _ & ->)]];
    split; reflexivity.
Qed.

Lemma closing_quiet post :
  closing post -> association_calls post = [] /\ sleeps post = [].
Proof.
  intros [-> | (c & h & p & o & ->)]; split; reflexivity.
Qed.

(** A run with at least one event: its first event is the create call,
    made with the bearer token and the record built from the validated
    request; the rest of the run is decided by the answer. *)
Lemma HubspotAdd_created_run (w : World) (req : HttpRequest) (ev : event)
    (rest : list event) :
  snd (HubspotAdd w req []) = ev :: rest ->
  exists data u hubspot_data token,
    body req = BodyJson (JObj data) /\
    dict_get data "UserDetails" = Some (JObj u) /\
    first_missing (JObj u) required_fields = Ok None /\
    build_hubspot_data w (JObj data) (JObj u) [] = (Ok hubspot_data, []) /\
    HUBSPOT_TOKEN w = Some token /\ token <> "" /\
    let headers := [ ("Authorization", ("Bearer " ++ token)%string);
                     ("Content-Type", "application/json") ] in
    exists answer,
      ev = Called (CreateContact headers hubspot_data) answer /\
      match answer with
      | Failed e =>
          HubspotAdd w req [] = (Ok (internal_server_error w e), [ev])
      | Returned r =>
          HubspotAdd w req []
          = try_except (after_create w (JObj u) hubspot_data headers r)
              (fun e => ret (internal_server_error w e)) [ev]
      end.
Proof.
  unfold HubspotAdd. intros Htrace.
  destruct (HubspotAdd_try_stops_or_creates w req)
    as [[Hnone _]
       | (data & u & hd & token & _ & Hbody & Huser & Hcheck & Hbuild & Htoken
          & Hnonempty & Hrun)].
  - exfalso. revert Htrace. unfold try_except, ret.
    destruct (HubspotAdd_try w req []) as [[resp | e] tr'];
      cbn in Hnone |- *; subst tr'; discriminate.
  - exists data, u, hd, token. repeat split; try assumption.
    cbv zeta.
    set (headers := [("Authorization", ("Bearer " ++ token)%string);
                     ("Content-Type", "application/json")]) in *.
    revert Htrace. unfold try_except. rewrite Hrun.
    unfold create_or_update, bind, send.
    destruct (crm w [] (CreateContact headers hd)) as [r | e]; cbn [app].
    + destruct (extends_after_create w (JObj u) hd headers r
                  [Called (CreateContact headers hd) (Returned r)])
        as [more Hmore].
      intros Htrace. exists (Returned r).
      assert (E : Called (CreateContact headers hd) (Returned r) = ev).
      { destruct (after_create w (JObj u) hd headers r
                    [Called (CreateContact headers hd) (Returned r)])
          as [[resp | e] tr']; cbn in Hmore, Htrace; subst tr';
          cbn in Htrace; congruence. }
      subst ev. split; reflexivity.
    + unfold ret. cbn. intros [= <- _]. exists (Failed e).
      split; reflexivity.
Qed.

(** X8. The call protocol.  The trace of every run of the handler is an
    opening (nothing; the create call; or the create call answered 409
    followed by the update by e-mail with the same headers and record),
    then a polling phase (look-ups for one contact, and pauses), then a
    closing (nothing, or one company update); there is no company update
    without polling. *)
Theorem handler_call_protocol (w : World) (req : HttpRequest) :
  exists resp pre polls post,
    HubspotAdd w req [] = (Ok resp, pre ++ polls ++ post) /\
    opening pre /\ polling polls /\ closing post /\
    (polls = [] -> post = []).
Proof.
  destruct (HubspotAdd_protocol w req)
    as (resp & pre & polls & post & Hrun & Hpre & Hpolls & Hpost & Hnone & _).
  exists resp, pre, polls, post.
  split; [exact Hrun |]. split; [exact Hpre |]. split; [exact Hpolls |].
  split; [exact Hpost |]. intros H. now destruct (Hnone H).
Qed.

(** X9. Bounded polling.  Whatever the request and the CRM, a run of the
    handler makes at most 5 association look-ups and pauses at most 4
    times, each time for 2, 3, 4.5 or 6.75 seconds. *)
Theorem handler_bounded_polling (w : World) (req : HttpRequest) :
  exists resp tr,
    HubspotAdd w req [] = (Ok resp, tr) /\
    (List.length (association_calls tr) <= 5)%nat /\
    (List.length (sleeps tr) <= 4)%nat /\
    incl (sleeps tr) handler_pauses.
Proof.
  destruct (HubspotAdd_protocol w req)
    as (resp & pre & polls & post & Hrun & Hpre & Hpolls & Hpost & _).
  destruct (opening_quiet pre Hpre) as [Hc1 Hs1].
  destruct (closing_quiet post Hpost) as [Hc2 Hs2].
  destruct Hpolls as (_ & Hcalls & Hlen & Hincl & _).
  exists resp, (pre ++ polls ++ post). split; [exact Hrun |].
  rewrite !association_calls_app, !sleeps_app, Hc1, Hc2, Hs1, Hs2, !app_nil_r.
  cbn [app]. repeat split; assumption.
Qed.

(** X10. Success means the CRM gave a contact id.  For every request
    other than the preflight, the answer is 200 exactly when the run made
    an association look-up.  And every association look-up of a run is
    made for a contact id that the handler has read before: the trace up
    to the look-ups is an opening whose last call, the create call or
    the update by e-mail, was answered with a JSON object, the look-up's
    contact id is the "id" of that object, and what follows that call is
    look-ups and pauses for this id, then nothing or one company
    update. *)
Theorem success_iff_polled (w : World) (req : HttpRequest)
    (resp : HttpResponse) (tr : list event) :
  method req <> "OPTIONS" ->
  HubspotAdd w req [] = (Ok resp, tr) ->
  (resp_status resp = 200 <-> association_calls tr <> []) /\
  (forall contact_id headers answer,
     In (Called (GetAssociations contact_id headers) answer) tr ->
     exists pre c r kv polls post,
       tr = pre ++ Called c (Returned r) :: polls ++ post /\
       opening (pre ++ [Called c (Returned r)]) /\
       contact_call c /\
       json_body r = Some (JObj kv) /\
       dict_get kv "id" = Some contact_id /\
       Forall (poll_event contact_id headers) polls /\
       In (Called (GetAssociations contact_id headers) answer) polls /\
       closing post).
Proof.
  intros Hmethod Hrun. split.
  - destruct (HubspotAdd_protocol w req)
      as (resp' & pre & polls & post & Hrun' & Hpre & Hpolls & Hpost & Hnone
          & Hsome).
    rewrite Hrun in Hrun'. injection Hrun' as <- ->.
    destruct (opening_quiet pre Hpre) as [Hc1 _].
    destruct (closing_quiet post Hpost) as [Hc2 _].
    rewrite !association_calls_app, Hc1, Hc2, app_nil_r. cbn [app].
    destruct Hpolls as (_ & _ & _ & _ & Hcount).
    destruct polls as [| ev polls].
    + destruct (Hnone eq_refl) as [_ Hstatus]. split.
      * intros H. now elim (Hstatus Hmethod).
      * intros H. now elim H.
    + split.
      * intros _ Hnil. specialize (Hcount ltac:(discriminate)).
        rewrite Hnil in Hcount. cbn in Hcount. lia.
      * intros _. now destruct (Hsome ltac:(discriminate)).
  - intros contact_id h answer Hin.
    destruct tr as [| ev rest]; [destruct Hin |].
    destruct (HubspotAdd_created_run w req ev rest)
      as (data & u & hd & token & _ & _ & _ & _ & _ & _ & Hcreated);
      [now rewrite Hrun |].
    cbv zeta in Hcreated.
    set (headers := [("Authorization", ("Bearer " ++ token)%string);
                     ("Content-Type", "application/json")]) in *.
    destruct Hcreated as (o & Hev & Hcase).
    rewrite Hrun in Hcase.
    destruct o as [r | e].
    2:{ injection Hcase as _ ->. subst ev. destruct Hin as [[=] | []]. }
    destruct (after_create_lookups w u hd headers r [ev])
      as (res & more & Hafter & Hmore).
    unfold try_except in Hcase. rewrite Hafter in Hcase.
    assert (Hrest : rest = more).
    { destruct res; unfold ret in Hcase; cbn [app] in Hcase;
        now injection Hcase. }
    subst rest ev. destruct Hin as [[=] | Hin].
    destruct Hmore as [Hnone | (update & r0 & kv & cid & polls & post & ->
                                & Hupdate & Hjson & Hid & Hall & Hclosing)].
    { now elim (In_association_calls _ _ _ _ Hin). }
    apply in_app_or in Hin. destruct Hin as [Hin | Hin].
    { destruct Hupdate as [[-> _] | (email & _ & ->)];
        [destruct Hin | destruct Hin as [[=] | []]]. }
    apply in_app_or in Hin. destruct Hin as [Hin | Hin].
    2:{ destruct Hclosing as [-> | (c & h' & p & a & ->)];
          [destruct Hin | destruct Hin as [[=] | []]]. }
    pose proof (proj1 (Forall_forall _ _) Hall _ Hin) as Hpoll.
    cbn [poll_event] in Hpoll. destruct Hpoll as [-> ->].
    destruct Hupdate as [[-> ->] | (email & H409 & ->)].
    + exists [], (CreateContact headers hd), r, kv, polls, post.
      split; [reflexivity |].
      split; [right; left; cbn [app]; eauto |].
      split; [exact I |]. split; [exact Hjson |]. split; [exact Hid |].
      split; [exact Hall |]. split; [exact Hin | exact Hclosing].
    + exists [Called (CreateContact headers hd) (Returned r)],
             (UpdateContact email headers hd), r0, kv, polls, post.
      split; [reflexivity |].
      split; [right; right; cbn [app]; eauto 8 |].
      split; [exact I |]. split; [exact Hjson |]. split; [exact Hid |].
      split; [exact Hall |]. split; [exact Hin | exact Hclosing].
Qed.

Lemma success_iff_polled_witness :
  exists resp tr,
    HubspotAdd (Sample.world (Sample.crm_company_update 200) (Some "pat-123"))
      Sample.lead [] = (Ok resp, tr) /\
    resp_status resp = 200 /\ association_calls tr <> [].
Proof.
  eexists. eexists. split; [vm_compute; reflexivity |].
  split; [reflexivity |].
  destruct (success_iff_polled
              (Sample.world (Sample.crm_company_update 200) (Some "pat-123"))
              Sample.lead _ _ ltac:(discriminate)
              ltac:(vm_compute; reflexivity)) as [Hiff _].
  apply Hiff. reflexivity.
Defined.

(** ** The create call *)

Lemma build_hubspot_data_record (w : World) (data u : list (string * json))
    (tr tr' : list event) (hubspot_data : json) :
  build_hubspot_data w (JObj data) (JObj u) tr = (Ok hubspot_data, tr') ->
  exists props,
    hubspot_data = JObj [("properties", JObj props)] /\
    dict_get props "email" = Some (dict_get_default u "Email" (JStr "")) /\
    dict_get props "firstname" = Some (dict_get_default u "FirstName" (JStr "")) /\
    dict_get props "lastname" = Some (dict_get_default u "LastName" (JStr "")) /\
    dict_get props "country_code"
      = Some (dict_get_default u "Country" (JStr "")) /\
    dict_get props "country_region_code"
      = Some (dict_get_default u "Country" (JStr "")) /\
    dict_get props "bpa_sales_office"
      = Some (JStr (contact_sales_office
                      (dict_get_default u "Country" (JStr "")))) /\
    dict_get props "market_type"
      = Some (JStr (contact_market_type
                      (dict_get_default u "Country" (JStr "")))).
Proof.
  unfold build_hubspot_data, bind, lift, ret. cbn [py_get_default].
  destruct (solution_map_get (dict_get_default data "OfferTitle" (JStr "")))
    as [solution_value | e]; [| discriminate].
  destruct (truthy (dict_get_default u "Country" (JStr "")));
    [destruct (countries_get w (dict_get_default u "Country" (JStr "")))
       as [[name |] | e]; [| | discriminate] | ];
    intros [= <- _]; eexists; (split; [reflexivity |]);
    repeat split; reflexivity.
Qed.

(** X11. The first outbound call.  A run that makes any call at all
    was started by a request whose body is an object with an object
    under "UserDetails", and it starts with the create-contact call.
    That call carries the bearer token, which is not empty, and a record
    built from the request: its email, firstname and lastname are the
    submitted Email, FirstName and LastName, all present and truthy; its
    country_code and country_region_code are the submitted Country (the
    empty string when there is none), and its sales office and market
    type are the classification of that same value. *)
Theorem first_call_is_authorised_create (w : World) (req : HttpRequest)
    (resp : HttpResponse) (ev : event) (rest : list event) :
  HubspotAdd w req [] = (Ok resp, ev :: rest) ->
  exists data u token props answer,
    body req = BodyJson (JObj data) /\
    dict_get data "UserDetails" = Some (JObj u) /\
    HUBSPOT_TOKEN w = Some token /\ token <> "" /\
    ev = Called
           (CreateContact
              [ ("Authorization", ("Bearer " ++ token)%string);
                ("Content-Type", "application/json") ]
              (JObj [("properties", JObj props)]))
           answer /\
    (forall field key,
       In (field, key) [ ("Email", "email"); ("FirstName", "firstname");
                         ("LastName", "lastname") ] ->
       exists v,
         dict_get u field = Some v /\ truthy v = true /\
         dict_get props key = Some v) /\
    dict_get props "country_code"
      = Some (dict_get_default u "Country" (JStr "")) /\
    dict_get props "country_region_code"
      = Some (dict_get_default u "Country" (JStr "")) /\
    dict_get props "bpa_sales_office"
      = Some (JStr (contact_sales_office
                      (dict_get_default u "Country" (JStr "")))) /\
    dict_get props "market_type"
      = Some (JStr (contact_market_type
                      (dict_get_default u "Country" (JStr "")))).
Proof.
  intros Hrun.
  destruct (HubspotAdd_created_run w req ev rest)
    as (data & u & hd & token & Hbody & Huser & Hcheck & Hbuild & Htoken
        & Hnonempty & answer & Hev & _); [now rewrite Hrun |].
  destruct (build_hubspot_data_record w data u [] [] hd Hbuild)
    as (props & -> & Hemail & Hfirst & Hlast & Hcc & Hcr & Hoffice & Htier).
  exists data, u, token, props, answer.
  split; [exact Hbody |]. split; [exact Huser |].
  split; [exact Htoken |]. split; [exact Hnonempty |]. split; [exact Hev |].
  split; [| auto].
  assert (Hfield : forall field key,
            In field required_fields ->
            dict_get props key = Some (dict_get_default u field (JStr "")) ->
            exists v,
              dict_get u field = Some v /\ truthy v = true /\
              dict_get props key = Some v).
  { intros field key Hin Hprop.
    pose proof (first_missing_none_truthy u required_fields field Hcheck Hin)
      as Ht.
    unfold dict_get_default in Ht, Hprop.
    destruct (dict_get u field) as [v |]; [eauto | discriminate]. }
  intros field key [[= <- <-] | [[= <- <-] | [[= <- <-] | []]]];
    apply Hfield; try assumption; cbn; tauto.
Qed.

Lemma first_call_is_authorised_create_witness :
  exists props answer,
    hd_error
      (snd (HubspotAdd (Sample.world Sample.crm_unavailable (Some "pat-123"))
              Sample.lead []))
    = Some (Called (CreateContact Sample.headers
                      (JObj [("properties", JObj props)])) answer) /\
    dict_get props "email" = Some (JStr "ada@example.org") /\
    dict_get props "bpa_sales_office" = Some (JStr "BPA US").
Proof.
  destruct (first_call_is_authorised_create
              (Sample.world Sample.crm_unavailable (Some "pat-123"))
              Sample.lead _ _ [] ltac:(vm_compute; reflexivity))
    as (data & u & token & props & answer & Hbody & Huser & Htoken & _ & Hev
        & _).
  injection Htoken as <-. injection Hev as <- <-.
  eexists. eexists. split; [reflexivity |]. split; reflexivity.
Defined.

(** X12. Upstream rejection.  When the create call is answered with
    HTTP 400, the handler answers 400 with the raw CRM text as message,
    and the create call is the only event of the run. *)
Theorem create_rejection_propagated (w : World) (req : HttpRequest)
    (resp : HttpResponse) (tr rest : list event) (headers : http_headers)
    (payload : json) (r : response) :
  HubspotAdd w req [] = (Ok resp, tr) ->
  tr = Called (CreateContact headers payload) (Returned r) :: rest ->
  status_code r = 400 ->
  rest = [] /\
  resp = {| resp_status := 400;
            resp_body := JsonDumps (JObj [("message", JStr (text r))]);
            resp_mimetype := Some "application/json";
            resp_headers := [("Access-Control-Allow-Origin", "*")] |}.
Proof.
  intros Hrun -> H400.
  destruct (HubspotAdd_after_create w req headers payload r rest)
    as (data & u & _ & _ & _ & Hafter); [now rewrite Hrun |].
  rewrite Hrun in Hafter. revert Hafter.
  unfold try_except, after_create. rewrite H400.
  change (400 =? 400) with true. unfold ret. cbv iota.
  intros H. injection H as -> ->. split; reflexivity.
Qed.

Lemma create_rejection_propagated_witness :
  fst (HubspotAdd
         (Sample.world
            (fun _ _ => Sample.text_reply 400 "Property values were not valid")
            (Some "pat-123"))
         Sample.lead [])
  = Ok {| resp_status := 400;
          resp_body := JsonDumps (JObj
            [("message", JStr "Property values were not valid")]);
          resp_mimetype := Some "application/json";
          resp_headers := [("Access-Control-Allow-Origin", "*")] |}.
Proof.
  destruct (create_rejection_propagated
              (Sample.world
                 (fun _ _ => Sample.text_reply 400 "Property values were not valid")
                 (Some "pat-123"))
              Sample.lead _ _ [] Sample.headers _
              {| status_code := 400; text := "Property values were not valid";
                 json_body := None |}
              ltac:(vm_compute; reflexivity) eq_refl eq_refl)
    as [_ Hresp].
  vm_compute. reflexivity.
Defined.

(** X13. A transport failure of the create call is not handled on the
    spot: it reaches the catch-all, the answer is 500 "Internal server
    error" with the error text, and the create call is the only event. *)
Theorem create_transport_failure (w : World) (req : HttpRequest)
    (resp : HttpResponse) (tr rest : list event) (headers : http_headers)
    (payload : json) (e : exn) :
  HubspotAdd w req [] = (Ok resp, tr) ->
  tr = Called (CreateContact headers payload) (Failed e) :: rest ->
  rest = [] /\ resp = internal_server_error w e.
Proof.
  intros Hrun ->.
  destruct (HubspotAdd_created_run w req
              (Called (CreateContact headers payload) (Failed e)) rest)
    as (data & u & hd & token & _ & _ & _ & _ & _ & _ & answer & Hev & Hanswer);
    [now rewrite Hrun |].
  injection Hev as _ _ Ha. rewrite <- Ha, Hrun in Hanswer.
  injection Hanswer as -> ->. split; reflexivity.
Qed.

Lemma create_transport_failure_witness :
  fst (HubspotAdd
         (Sample.world (fun _ _ => Sample.timed_out) (Some "pat-123"))
         Sample.lead [])
  = Ok {| resp_status := 500;
          resp_body := JsonDumps (JObj
            [ ("message", JStr "Internal server error");
              ("error", JStr "Read timed out.") ]);
          resp_mimetype := Some "application/json";
          resp_headers := [("Access-Control-Allow-Origin", "*")] |}.
Proof.
  destruct (create_transport_failure
              (Sample.world (fun _ _ => Sample.timed_out) (Some "pat-123"))
              Sample.lead _ _ [] Sample.headers _
              (RequestException "Read timed out.")
              ltac:(vm_compute; reflexivity) eq_refl)
    as [_ Hresp].
  vm_compute. reflexivity.
Defined.

(** ** Answers *)

Ltac answer_ok := split; [cbn; tauto | eexists; reflexivity].

Lemma resolve_and_respond_answers w user headers r contact_created :
  post message_and_status
    (resolve_and_respond w user headers r contact_created).
Proof. unfold resolve_and_respond. repeat post_step. answer_ok. Qed.

Lemma create_or_update_answers w user hubspot_data headers :
  post message_and_status (create_or_update w user hubspot_data headers).
Proof.
  unfold create_or_update, after_create.
  post_step. post_step; [post_step; answer_ok |].
  post_step; [| apply resolve_and_respond_answers].
  post_step.
  apply post_bind_with with
    (R := fun x => match x with
                   | inl failure => message_and_status failure
                   | inr _ => True
                   end).
  - apply post_try_except.
    + repeat post_step. exact I.
    + intros e. post_step. answer_ok.
  - intros [failure | r'] H.
    + post_step. exact H.
    + post_step; [post_step; answer_ok | apply resolve_and_respond_answers].
Qed.

(** A POST is answered 200, 400 or 500, with a message. *)
Lemma HubspotAdd_post_answers (w : World) (req : HttpRequest)
    (resp : HttpResponse) (tr : list event) :
  method req = "POST" ->
  HubspotAdd w req [] = (Ok resp, tr) ->
  message_and_status resp.
Proof.
  intros Hpost.
  assert (Htry : post message_and_status (HubspotAdd_try w req)).
  { unfold HubspotAdd_try, build_and_send. rewrite Hpost.
    change ("POST" =? "OPTIONS")%string with false.
    change (negb ("POST" =? "POST")%string) with false. cbv iota.
    repeat post_step;
      first [ apply create_or_update_answers | answer_ok ]. }
  unfold HubspotAdd, try_except. specialize (Htry []).
  destruct (HubspotAdd_try w req []) as [[resp' | e] tr'].
  - intros [= <- _]. exact Htry.
  - unfold ret. intros [= <- _]. answer_ok.
Qed.

(** X14. The method gate.  The answer is 405 exactly when the method is
    neither OPTIONS nor POST; and for every method other than POST the
    body is not looked at and no outbound call is made. *)
Theorem method_gate (w : World) (req : HttpRequest) (resp : HttpResponse)
    (tr : list event) :
  HubspotAdd w req [] = (Ok resp, tr) ->
  (resp_status resp = 405 <->
   method req <> "OPTIONS" /\ method req <> "POST") /\
  (method req <> "POST" ->
   tr = [] /\
   forall other : request_body,
     HubspotAdd w {| method := method req; body := other |} []
     = (Ok resp, [])).
Proof.
  intros Hrun.
  destruct (String.eqb_spec (method req) "POST") as [Hpost | Hnot].
  - destruct (HubspotAdd_post_answers w req resp tr Hpost Hrun) as [Hstatus _].
    split; [| contradiction]. split.
    + intros H405. rewrite H405 in Hstatus.
      destruct Hstatus as [H | [H | H]]; discriminate.
    + intros [_ H]. contradiction.
  - revert Hrun. unfold HubspotAdd, try_except, HubspotAdd_try. cbn [method].
    destruct (String.eqb_spec (method req) "OPTIONS") as [Hopt | Hopt].
    + unfold ret. intros [= <- <-]. split.
      * split; [discriminate | intros [H _]; contradiction].
      * intros _. split; reflexivity.
    + apply String.eqb_neq in Hnot. rewrite Hnot. unfold ret. cbn [negb].
      intros [= <- <-]. split.
      * split; [| reflexivity].
        intros _. split; [exact Hopt | now apply String.eqb_neq].
      * intros _. split; reflexivity.
Qed.

Lemma method_gate_witness :
  fst (HubspotAdd (Sample.world Sample.crm_unavailable (Some "pat-123"))
         {| method := "GET"; body := BodyNotJson |} [])
  = Ok {| resp_status := 405;
          resp_body := JsonDumps (JObj [("message", JStr "Only POST method allowed")]);
          resp_mimetype := Some "application/json";
          resp_headers := [("Access-Control-Allow-Origin", "*")] |}.
Proof.
  destruct (method_gate
              (Sample.world Sample.crm_unavailable (Some "pat-123"))
              {| method := "GET"; body := BodyFault UnicodeDecodeError |} _ _
              ltac:(vm_compute; reflexivity))
    as [_ Hbody].
  destruct (Hbody ltac:(discriminate)) as [_ Hsame].
  exact (f_equal fst (Hsame BodyNotJson)).
Defined.

(** X15. Every answer but the preflight carries a message: for every
    request whose method is not OPTIONS, the body of the response is a
    JSON object with a string under "message". *)
Theorem every_answer_has_message (w : World) (req : HttpRequest)
    (resp : HttpResponse) (tr : list event) :
  method req <> "OPTIONS" ->
  HubspotAdd w req [] = (Ok resp, tr) ->
  exists m, body_field resp "message" = Some (JStr m).
Proof.
  intros Hmethod Hrun.
  destruct (String.eqb_spec (method req) "POST") as [Hpost | Hnot].
  - now destruct (HubspotAdd_post_answers w req resp tr Hpost Hrun).
  - revert Hrun. unfold HubspotAdd, try_except, HubspotAdd_try.
    apply String.eqb_neq in Hmethod, Hnot. rewrite Hmethod, Hnot.
    unfold ret. cbn [negb]. intros [= <- _]. eexists. reflexivity.
Qed.

Lemma every_answer_has_message_witness :
  exists m,
    body_field
      {| resp_status := 400;
         resp_body := JsonDumps (JObj [("message", JStr "Invalid JSON format")]);
         resp_mimetype := Some "application/json";
         resp_headers := [("Access-Control-Allow-Origin", "*")] |}
      "message" = Some (JStr m).
Proof.
  apply (every_answer_has_message
           (Sample.world Sample.crm_unavailable None)
           {| method := "POST"; body := BodyNotJson |} _ []).
  - discriminate.
  - reflexivity.
Defined.

(** X17. A JSON body that is not an object never reaches the CRM: a POST
    with such a body (an array, a string, a number, a boolean, null) is
    answered 400 or 500 and no outbound call is made. *)
Theorem non_object_body_stops (w : World) (req : HttpRequest) (data : json)
    (resp : HttpResponse) (tr : list event) :
  method req = "POST" ->
  body req = BodyJson data ->
  (forall d, data <> JObj d) ->
  HubspotAdd w req [] = (Ok resp, tr) ->
  tr = [] /\ (resp_status resp = 400 \/ resp_status resp = 500).
Proof.
  intros Hpost Hbody Hnot Hrun.
  destruct (HubspotAdd_post_answers w req resp tr Hpost Hrun) as [Hstatus _].
  destruct (HubspotAdd_try_stops_or_creates w req)
    as [[Hnone Hno200] | (d & u & _ & _ & _ & Hobj & _)].
  2:{ rewrite Hbody in Hobj. injection Hobj as ->. now elim (Hnot d). }
  revert Hrun. unfold HubspotAdd, try_except.
  destruct (HubspotAdd_try w req []) as [[resp' | e] tr'];
    cbn in Hnone, Hno200; subst tr'.
  - intros [= <- <-]. split; [reflexivity |].
    assert (H : resp_status resp' <> 200).
    { apply Hno200; [reflexivity |]. rewrite Hpost. discriminate. }
    destruct Hstatus as [H200 | H']; [contradiction | exact H'].
  - unfold ret. intros [= <- <-]. split; [reflexivity | now right].
Qed.

Lemma non_object_body_stops_witness :
  snd (HubspotAdd (Sample.world Sample.crm_unavailable (Some "pat-123"))
         {| method := "POST"; body := BodyJson (JList [JStr "UserDetails"]) |} [])
  = [].
Proof.
  destruct (non_object_body_stops
              (Sample.world Sample.crm_unavailable (Some "pat-123"))
              {| method := "POST"; body := BodyJson (JList [JStr "UserDetails"]) |}
              (JList [JStr "UserDetails"]) _ _ eq_refl eq_refl
              ltac:(discriminate) ltac:(vm_compute; reflexivity))
    as [Htrace _].
  exact Htrace.
Defined.

(** ** The solution map *)

Lemma assoc_string_In m s d : assoc_string m s = Some d -> In (s, d) m.
Proof.
  induction m as [| [k v] m IH]; cbn [assoc_string]; [discriminate |].
  destruct (String.eqb_spec k s) as [-> | _].
  - intros [= ->]. now left.
  - intros H. right. now apply IH.
Qed.

Lemma assoc_string_not_In m s :
  ~ In s (map fst m) -> assoc_string m s = None.
Proof.
  induction m as [| [k v] m IH]; cbn [assoc_string map fst]; [reflexivity |].
  intros H. destruct (String.eqb_spec k s) as [-> | _].
  - elim H. now left.
  - apply IH. intros Hin. apply H. now right.
Qed.

(** X16. The solution look-up is a normalisation: whenever it succeeds
    (the offer title is not a list or an object), applying it again to
    its result changes nothing, and a string that is none of the six
    solution codes passes through unchanged. *)
Theorem solution_map_get_normalises (raw_solution solution_value : json) :
  solution_map_get raw_solution = Ok solution_value ->
  solution_map_get solution_value = Ok solution_value /\
  (forall s, raw_solution = JStr s -> ~ In s (map fst solution_map) ->
             solution_value = raw_solution).
Proof.
  unfold solution_map_get at 1.
  destruct raw_solution as [| b | z | f | s | l | kv]; try discriminate;
    try (intros [= <-]; split; [reflexivity | reflexivity]).
  destruct (assoc_string solution_map s) as [display |] eqn:Hs.
  - intros [= <-]. split.
    + apply assoc_string_In in Hs. cbn in Hs.
      repeat (destruct Hs as [[= _ <-] | Hs]; [reflexivity |]).
      destruct Hs.
    + intros s' [= <-] Hnot.
      rewrite (assoc_string_not_In _ _ Hnot) in Hs. discriminate.
  - intros [= <-]. split; [| reflexivity].
    unfold solution_map_get. now rewrite Hs.
Qed.

Lemma solution_map_get_normalises_witness :
  solution_map_get (JStr "BPA CRM 365") = Ok (JStr "BPA CRM 365").
Proof.
  exact (proj1 (solution_map_get_normalises
                  (JStr "BPACRM365") (JStr "BPA CRM 365") eq_refl)).
Defined.

Lemma no_token_no_call_witness :
  snd (HubspotAdd (Sample.world Sample.crm_unavailable None) Sample.lead [])
  = [].
Proof.
  apply (no_token_no_call (Sample.world Sample.crm_unavailable None)
           Sample.lead).
  left. reflexivity.
Defined.
